(** * Benchmark case catalog of VectorDBBench

    A shallow embedding of [vectordb_bench/backend/cases.py]: the [CaseType]
    enumeration, the pydantic model [Case] with its [filters] property, the two
    family classes [CapacityCase] and [PerformanceCase], the concrete case
    classes, and the registry [type2case] with the accessors [case_cls],
    [case_name] and [case_description].

    Python values are modelled as follows.
    - [int] is [Z]; [float] is the primitive binary64 type [float], whose
      operations are specified by [SpecFloat] through [Prim2SF].
    - A call that may raise returns a [pyresult]; [None] is [Datatypes.None].
    - A [dict] is an association list in insertion order.
    - A model class is the record of the field defaults it declares; a subclass
      overrides field by field.  Instantiation requires every field that has
      no default; a field of optional type left without one defaults to
      [None] (pydantic 1.x). *)

From Stdlib Require Import ZArith List String Ascii Bool Lia Floats Sorted.
From Stdlib Require Import DecimalString DecimalZ DecimalPos.
Import ListNotations.

Set Warnings "-inexact-float".

Local Open Scope string_scope.
Local Open Scope Z_scope.

(** ** Python results *)

Inductive exn : Set :=
| ValueError (msg : string)
| OverflowError (msg : string)
| ValidationError (field : string).

Inductive pyresult (A : Type) : Type :=
| Ok (a : A)
| Raise (e : exn).

Arguments Ok {A} a.
Arguments Raise {A} e.

Definition bind {A B : Type} (r : pyresult A) (k : A -> pyresult B) : pyresult B :=
  match r with
  | Ok a => k a
  | Raise e => Raise e
  end.

Notation "x <- e ;; k" := (bind e (fun x => k))
  (at level 61, e at next level, right associativity).

(** ** Numbers: [float * int], [round] and [str] *)

(** [float(n)] for a Python [int]: the nearest binary64 value, ties to even;
    [OverflowError] when that is out of range. *)
Definition float_of_int (n : Z) : pyresult float :=
  match binary_normalize prec emax n 0 false with
  | S754_infinity _ => Raise (OverflowError "int too large to convert to float")
  | sf => Ok (SF2Prim sf)
  end.

(** [x * n] for a [float] [x] and an [int] [n]: the [int] is converted first. *)
Definition float_mul_int (x : float) (n : Z) : pyresult float :=
  nf <- float_of_int n ;;
  Ok (x * nf)%float.

(** The integer nearest to [m * 2^e], ties to the even one. *)
Definition round_half_even (m : positive) (e : Z) : Z :=
  if 0 <=? e then Z.pos m * 2 ^ e
  else
    let d := 2 ^ (- e) in
    let q := Z.pos m / d in
    match 2 * (Z.pos m mod d) ?= d with
    | Lt => q
    | Eq => if Z.even q then q else q + 1
    | Gt => q + 1
    end.

(** [round(x)] with one argument: an [int], by round-half-to-even. *)
Definition py_round (x : float) : pyresult Z :=
  match Prim2SF x with
  | S754_nan => Raise (ValueError "cannot convert float NaN to integer")
  | S754_infinity _ => Raise (OverflowError "cannot convert float infinity to integer")
  | S754_zero _ => Ok 0
  | S754_finite s m e => Ok (cond_Zopp s (round_half_even m e))
  end.

(** [str(n)] for an [int], as an f-string formats it. *)
Definition str_int (n : Z) : string :=
  NilZero.string_of_int (Z.to_int n).

(** Reading back what [str_int] wrote. *)
Definition int_of_str (s : string) : option Z :=
  option_map Z.of_int (NilZero.int_of_string s).

(** ** Dictionaries *)

Section Dict.
Context {K V : Type}.
Variable eqb : K -> K -> bool.

Definition dict : Type := list (K * V).

Fixpoint dict_get (d : dict) (k : K) : option V :=
  match d with
  | [] => None
  | (k', v) :: d' => if eqb k' k then Some v else dict_get d' k
  end.

Fixpoint dict_setitem (d : dict) (k : K) (v : V) : dict :=
  match d with
  | [] => [(k, v)]
  | (k', v') :: d' =>
      if eqb k' k then (k', v) :: d' else (k', v') :: dict_setitem d' k v
  end.

Definition dict_literal (entries : list (K * V)) : dict :=
  fold_left (fun d kv => dict_setitem d (fst kv) (snd kv)) entries [].

Definition dict_keys (d : dict) : list K := map fst d.

Definition dict_values (d : dict) : list V := map snd d.

End Dict.

Arguments dict K V : clear implicits.

(** ** The enumerations *)

Module CaseType.

Inductive t : Set :=
| CapacityDim128
| CapacityDim960
| Performance768D100M
| Performance768D10M
| Performance768D1M
| Performance768D10M1P
| Performance768D1M1P
| Performance768D10M99P
| Performance768D1M99P
| Performance1536D500K
| Performance1536D5M
| Performance1536D500K1P
| Performance1536D5M1P
| Performance1536D500K99P
| Performance1536D5M99P
| Performance960D100K90P
| Performance128D500K90P
| Performance960D100K80P
| Performance128D500K80P
| Performance960D100K70P
| Performance128D500K70P
| Performance960D100K60P
| Performance128D500K60P
| Performance960D100K50P
| Performance128D500K50P
| Performance960D100K40P
| Performance128D500K40P
| Performance960D100K30P
| Performance128D500K30P
| Performance960D100K20P
| Performance128D500K20P
| Performance960D100K10P
| Performance128D500K10P
| Custom.

Definition value (c : t) : Z :=
  match c with
  | CapacityDim128 => 1
  | CapacityDim960 => 2
  | Performance768D100M => 3
  | Performance768D10M => 4
  | Performance768D1M => 5
  | Performance768D10M1P => 6
  | Performance768D1M1P => 7
  | Performance768D10M99P => 8
  | Performance768D1M99P => 9
  | Performance1536D500K => 10
  | Performance1536D5M => 11
  | Performance1536D500K1P => 12
  | Performance1536D5M1P => 13
  | Performance1536D500K99P => 14
  | Performance1536D5M99P => 15
  | Performance960D100K90P => 16
  | Performance128D500K90P => 17
  | Performance960D100K80P => 18
  | Performance128D500K80P => 19
  | Performance960D100K70P => 20
  | Performance128D500K70P => 21
  | Performance960D100K60P => 22
  | Performance128D500K60P => 23
  | Performance960D100K50P => 24
  | Performance128D500K50P => 25
  | Performance960D100K40P => 26
  | Performance128D500K40P => 27
  | Performance960D100K30P => 28
  | Performance128D500K30P => 29
  | Performance960D100K20P => 30
  | Performance128D500K20P => 31
  | Performance960D100K10P => 32
  | Performance128D500K10P => 33
  | Custom => 100
  end.

Definition members : list t :=
  [ CapacityDim128;
    CapacityDim960;
    Performance768D100M;
    Performance768D10M;
    Performance768D1M;
    Performance768D10M1P;
    Performance768D1M1P;
    Performance768D10M99P;
    Performance768D1M99P;
    Performance1536D500K;
    Performance1536D5M;
    Performance1536D500K1P;
    Performance1536D5M1P;
    Performance1536D500K99P;
    Performance1536D5M99P;
    Performance960D100K90P;
    Performance128D500K90P;
    Performance960D100K80P;
    Performance128D500K80P;
    Performance960D100K70P;
    Performance128D500K70P;
    Performance960D100K60P;
    Performance128D500K60P;
    Performance960D100K50P;
    Performance128D500K50P;
    Performance960D100K40P;
    Performance128D500K40P;
    Performance960D100K30P;
    Performance128D500K30P;
    Performance960D100K20P;
    Performance128D500K20P;
    Performance960D100K10P;
    Performance128D500K10P;
    Custom ].

(** Members are compared by identity; distinct members have distinct values. *)
Definition eqb (a b : t) : bool := value a =? value b.

(** [CaseType(n)]: the member whose value is [n]. *)
Definition of_value (n : Z) : pyresult t :=
  match find (fun m => value m =? n) members with
  | Some m => Ok m
  | None => Raise (ValueError (str_int n ++ " is not a valid CaseType"))
  end.

End CaseType.

Inductive CaseLabel : Set :=
| Load
| Performance.

(** ** The dataset collaborator *)

Module Dataset.

(** Modelled from the spec: the module [dataset] is not part of the sources.
    A dataset reference is a handle to a named dataset at a requested
    cardinality and exposes its record count, read by [filters] as
    [dataset.data.size]. *)
Inductive t : Set :=
| LAION
| GIST
| COHERE
| SIFT
| OPENAI.

Record BaseDataset : Set := { name : t; size : Z }.

Record DatasetManager : Set := { data : BaseDataset }.

Definition manager (d : t) (requested_size : Z) : DatasetManager :=
  {| data := {| name := d; size := requested_size |} |}.

End Dataset.

(** ** The configuration constants *)

(** A timeout is a [float | int]. *)
Inductive pynum : Set :=
| PyInt (n : Z)
| PyFloat (x : float).

(** Modelled from the spec: the module [config] is not part of the sources.
    It supplies the timeout constants, each a number of seconds. *)
Record Config : Set := {
  CAPACITY_TIMEOUT_IN_SECONDS : pynum;
  LOAD_TIMEOUT_DEFAULT : pynum;
  LOAD_TIMEOUT_768D_1M : pynum;
  LOAD_TIMEOUT_768D_10M : pynum;
  LOAD_TIMEOUT_768D_100M : pynum;
  LOAD_TIMEOUT_1536D_500K : pynum;
  LOAD_TIMEOUT_1536D_5M : pynum;
  OPTIMIZE_TIMEOUT_DEFAULT : pynum;
  OPTIMIZE_TIMEOUT_768D_1M : pynum;
  OPTIMIZE_TIMEOUT_768D_10M : pynum;
  OPTIMIZE_TIMEOUT_768D_100M : pynum;
  OPTIMIZE_TIMEOUT_1536D_500K : pynum;
  OPTIMIZE_TIMEOUT_1536D_5M : pynum
}.

(** ** The model [Case] *)

Record Case : Set := {
  case_id : CaseType.t;
  label : CaseLabel;
  name : string;
  description : string;
  dataset : Dataset.DatasetManager;
  load_timeout : pynum;
  optimize_timeout : option pynum;
  filter_rate : option float
}.

(** The value of [filters]: [{"metadata": ..., "id": ...}]. *)
Record FilterDict : Set := { metadata : string; id : Z }.

Definition filters (self : Case) : pyresult (option FilterDict) :=
  match filter_rate self with
  | Some rate =>
      x <- float_mul_int rate (Dataset.size (Dataset.data (dataset self))) ;;
      ID <- py_round x ;;
      Ok (Some {| metadata := (">=" ++ str_int ID)%string; id := ID |})
  | None => Ok None
  end.

(** ** Model classes *)

(** The defaults a class body declares; [None] for a field it leaves alone.
    For the two fields of optional type, [Some None] is the default [None]. *)
Record ModelClass : Set := {
  d_case_id : option CaseType.t;
  d_label : option CaseLabel;
  d_name : option string;
  d_description : option string;
  d_dataset : option Dataset.DatasetManager;
  d_load_timeout : option pynum;
  d_optimize_timeout : option (option pynum);
  d_filter_rate : option (option float)
}.

Definition override {A : Type} (parent own : option A) : option A :=
  match own with
  | Some v => Some v
  | None => parent
  end.

(** [class Child(Parent): ...]: the child's own defaults win. *)
Definition subclass (parent own : ModelClass) : ModelClass :=
  {| d_case_id := override (d_case_id parent) (d_case_id own);
     d_label := override (d_label parent) (d_label own);
     d_name := override (d_name parent) (d_name own);
     d_description := override (d_description parent) (d_description own);
     d_dataset := override (d_dataset parent) (d_dataset own);
     d_load_timeout := override (d_load_timeout parent) (d_load_timeout own);
     d_optimize_timeout :=
       override (d_optimize_timeout parent) (d_optimize_timeout own);
     d_filter_rate := override (d_filter_rate parent) (d_filter_rate own) |}.

Definition required {A : Type} (field : string) (v : option A) : pyresult A :=
  match v with
  | Some a => Ok a
  | None => Raise (ValidationError field)
  end.

(** [cls()]: a model built from the defaults alone. *)
Definition instantiate (cls : ModelClass) : pyresult Case :=
  i <- required "case_id" (d_case_id cls) ;;
  l <- required "label" (d_label cls) ;;
  n <- required "name" (d_name cls) ;;
  d <- required "description" (d_description cls) ;;
  ds <- required "dataset" (d_dataset cls) ;;
  lt <- required "load_timeout" (d_load_timeout cls) ;;
  ot <- required "optimize_timeout" (d_optimize_timeout cls) ;;
  fr <- required "filter_rate" (d_filter_rate cls) ;;
  Ok {| case_id := i; label := l; name := n; description := d; dataset := ds;
        load_timeout := lt; optimize_timeout := ot; filter_rate := fr |}.

(** The base class [Case] declares its fields without defaults.  The two
    fields of optional type, [optimize_timeout: float | int | None] and
    [filter_rate: float | None], are then not required: left alone, they are
    [None].  The other six are required. *)
Definition Case_class : ModelClass :=
  {| d_case_id := None; d_label := None; d_name := None; d_description := None;
     d_dataset := None; d_load_timeout := None;
     d_optimize_timeout := Some None; d_filter_rate := Some None |}.

Section Catalog.

Variable config : Config.

Definition CapacityCase : ModelClass :=
  subclass Case_class
    {| d_case_id := None;
       d_label := Some Load;
       d_name := None;
       d_description := None;
       d_dataset := None;
       d_load_timeout := Some (config.(CAPACITY_TIMEOUT_IN_SECONDS));
       d_optimize_timeout := Some None;
       d_filter_rate := Some None |}.

Definition PerformanceCase : ModelClass :=
  subclass Case_class
    {| d_case_id := None;
       d_label := Some Performance;
       d_name := None;
       d_description := None;
       d_dataset := None;
       d_load_timeout := Some (config.(LOAD_TIMEOUT_DEFAULT));
       d_optimize_timeout := Some (Some (config.(OPTIMIZE_TIMEOUT_DEFAULT)));
       d_filter_rate := Some None |}.

Definition CapacityDim960 : ModelClass :=
  subclass CapacityCase
    {| d_case_id := Some CaseType.CapacityDim960;
       d_label := None;
       d_name := Some "Capacity Test (960 Dim Repeated)";
       d_description := Some "This case tests the vector database's loading capacity by repeatedly inserting large-dimension vectors (GIST 100K vectors, <b>960 dimensions</b>) until it is fully loaded.
Number of inserted vectors will be reported.";
       d_dataset := Some (Dataset.manager Dataset.GIST 100000);
       d_load_timeout := None;
       d_optimize_timeout := None;
       d_filter_rate := None |}.

Definition CapacityDim128 : ModelClass :=
  subclass CapacityCase
    {| d_case_id := Some CaseType.CapacityDim128;
       d_label := None;
       d_name := Some "Capacity Test (128 Dim Repeated)";
       d_description := Some "This case tests the vector database's loading capacity by repeatedly inserting small-dimension vectors (SIFT 100K vectors, <b>128 dimensions</b>) until it is fully loaded.
Number of inserted vectors will be reported.";
       d_dataset := Some (Dataset.manager Dataset.SIFT 500000);
       d_load_timeout := None;
       d_optimize_timeout := None;
       d_filter_rate := None |}.

Definition Performance768D10M : ModelClass :=
  subclass PerformanceCase
    {| d_case_id := Some CaseType.Performance768D10M;
       d_label := None;
       d_name := Some "Search Performance Test (10M Dataset, 768 Dim)";
       d_description := Some "This case tests the search performance of a vector database with a large dataset (<b>Cohere 10M vectors</b>, 768 dimensions) at varying parallel levels.
Results will show index building time, recall, and maximum QPS.";
       d_dataset := Some (Dataset.manager Dataset.COHERE 10000000);
       d_load_timeout := Some (config.(LOAD_TIMEOUT_768D_10M));
       d_optimize_timeout := Some (Some (config.(OPTIMIZE_TIMEOUT_768D_10M)));
       d_filter_rate := None |}.

Definition Performance768D1M : ModelClass :=
  subclass PerformanceCase
    {| d_case_id := Some CaseType.Performance768D1M;
       d_label := None;
       d_name := Some "Search Performance Test (1M Dataset, 768 Dim)";
       d_description := Some "This case tests the search performance of a vector database with a medium dataset (<b>Cohere 1M vectors</b>, 768 dimensions) at varying parallel levels.
Results will show index building time, recall, and maximum QPS.";
       d_dataset := Some (Dataset.manager Dataset.COHERE 1000000);
       d_load_timeout := Some (config.(LOAD_TIMEOUT_768D_1M));
       d_optimize_timeout := Some (Some (config.(OPTIMIZE_TIMEOUT_768D_1M)));
       d_filter_rate := None |}.

Definition Performance768D10M1P : ModelClass :=
  subclass PerformanceCase
    {| d_case_id := Some CaseType.Performance768D10M1P;
       d_label := None;
       d_name := Some "Filtering Search Performance Test (10M Dataset, 768 Dim, Filter 1%)";
       d_description := Some "This case tests the search performance of a vector database with a large dataset (<b>Cohere 10M vectors</b>, 768 dimensions) under a low filtering rate (<b>1% vectors</b>), at varying parallel levels.
Results will show index building time, recall, and maximum QPS.";
       d_dataset := Some (Dataset.manager Dataset.COHERE 10000000);
       d_load_timeout := Some (config.(LOAD_TIMEOUT_768D_10M));
       d_optimize_timeout := Some (Some (config.(OPTIMIZE_TIMEOUT_768D_10M)));
       d_filter_rate := Some (Some 0.01%float) |}.

Definition Performance768D1M1P : ModelClass :=
  subclass PerformanceCase
    {| d_case_id := Some CaseType.Performance768D1M1P;
       d_label := None;
       d_name := Some "Filtering Search Performance Test (1M Dataset, 768 Dim, Filter 1%)";
       d_description := Some "This case tests the search performance of a vector database with a medium dataset (<b>Cohere 1M vectors</b>, 768 dimensions) under a low filtering rate (<b>1% vectors</b>), at varying parallel levels.
Results will show index building time, recall, and maximum QPS.";
       d_dataset := Some (Dataset.manager Dataset.COHERE 1000000);
       d_load_timeout := Some (config.(LOAD_TIMEOUT_768D_1M));
       d_optimize_timeout := Some (Some (config.(OPTIMIZE_TIMEOUT_768D_1M)));
       d_filter_rate := Some (Some 0.01%float) |}.

Definition Performance768D10M99P : ModelClass :=
  subclass PerformanceCase
    {| d_case_id := Some CaseType.Performance768D10M99P;
       d_label := None;
       d_name := Some "Filtering Search Performance Test (10M Dataset, 768 Dim, Filter 99%)";
       d_description := Some "This case tests the search performance of a vector database with a large dataset (<b>Cohere 10M vectors</b>, 768 dimensions) under a high filtering rate (<b>99% vectors</b>), at varying parallel levels.
Results will show index building time, recall, and maximum QPS.";
       d_dataset := Some (Dataset.manager Dataset.COHERE 10000000);
       d_load_timeout := Some (config.(LOAD_TIMEOUT_768D_10M));
       d_optimize_timeout := Some (Some (config.(OPTIMIZE_TIMEOUT_768D_10M)));
       d_filter_rate := Some (Some 0.99%float) |}.

Definition Performance768D1M99P : ModelClass :=
  subclass PerformanceCase
    {| d_case_id := Some CaseType.Performance768D1M99P;
       d_label := None;
       d_name := Some "Filtering Search Performance Test (1M Dataset, 768 Dim, Filter 99%)";
       d_description := Some "This case tests the search performance of a vector database with a medium dataset (<b>Cohere 1M vectors</b>, 768 dimensions) under a high filtering rate (<b>99% vectors</b>), at varying parallel levels.
Results will show index building time, recall, and maximum QPS.";
       d_dataset := Some (Dataset.manager Dataset.COHERE 1000000);
       d_load_timeout := Some (config.(LOAD_TIMEOUT_768D_1M));
       d_optimize_timeout := Some (Some (config.(OPTIMIZE_TIMEOUT_768D_1M)));
       d_filter_rate := Some (Some 0.99%float) |}.

Definition Performance768D100M : ModelClass :=
  subclass PerformanceCase
    {| d_case_id := Some CaseType.Performance768D100M;
       d_label := None;
       d_name := Some "Search Performance Test (100M Dataset, 768 Dim)";
       d_description := Some "This case tests the search performance of a vector database with a large 100M dataset (<b>LAION 100M vectors</b>, 768 dimensions), at varying parallel levels.
Results will show index building time, recall, and maximum QPS.";
       d_dataset := Some (Dataset.manager Dataset.LAION 100000000);
       d_load_timeout := Some (config.(LOAD_TIMEOUT_768D_100M));
       d_optimize_timeout := Some (Some (config.(OPTIMIZE_TIMEOUT_768D_100M)));
       d_filter_rate := Some None |}.

Definition Performance1536D500K : ModelClass :=
  subclass PerformanceCase
    {| d_case_id := Some CaseType.Performance1536D500K;
       d_label := None;
       d_name := Some "Search Performance Test (500K Dataset, 1536 Dim)";
       d_description := Some "This case tests the search performance of a vector database with a medium 500K dataset (<b>OpenAI 500K vectors</b>, 1536 dimensions), at varying parallel levels.
Results will show index building time, recall, and maximum QPS.";
       d_dataset := Some (Dataset.manager Dataset.OPENAI 500000);
       d_load_timeout := Some (config.(LOAD_TIMEOUT_1536D_500K));
       d_optimize_timeout := Some (Some (config.(OPTIMIZE_TIMEOUT_1536D_500K)));
       d_filter_rate := Some None |}.

Definition Performance1536D5M : ModelClass :=
  subclass PerformanceCase
    {| d_case_id := Some CaseType.Performance1536D5M;
       d_label := None;
       d_name := Some "Search Performance Test (5M Dataset, 1536 Dim)";
       d_description := Some "This case tests the search performance of a vector database with a medium 5M dataset (<b>OpenAI 5M vectors</b>, 1536 dimensions), at varying parallel levels.
Results will show index building time, recall, and maximum QPS.";
       d_dataset := Some (Dataset.manager Dataset.OPENAI 5000000);
       d_load_timeout := Some (config.(LOAD_TIMEOUT_1536D_5M));
       d_optimize_timeout := Some (Some (config.(OPTIMIZE_TIMEOUT_1536D_5M)));
       d_filter_rate := Some None |}.

Definition Performance1536D500K1P : ModelClass :=
  subclass PerformanceCase
    {| d_case_id := Some CaseType.Performance1536D500K1P;
       d_label := None;
       d_name := Some "Filtering Search Performance Test (500K Dataset, 1536 Dim, Filter 1%)";
       d_description := Some "This case tests the search performance of a vector database with a large dataset (<b>OpenAI 500K vectors</b>, 1536 dimensions) under a low filtering rate (<b>1% vectors</b>), at varying parallel levels.
Results will show index building time, recall, and maximum QPS.";
       d_dataset := Some (Dataset.manager Dataset.OPENAI 500000);
       d_load_timeout := Some (config.(LOAD_TIMEOUT_1536D_500K));
       d_optimize_timeout := Some (Some (config.(OPTIMIZE_TIMEOUT_1536D_500K)));
       d_filter_rate := Some (Some 0.01%float) |}.

Definition Performance1536D5M1P : ModelClass :=
  subclass PerformanceCase
    {| d_case_id := Some CaseType.Performance1536D5M1P;
       d_label := None;
       d_name := Some "Filtering Search Performance Test (5M Dataset, 1536 Dim, Filter 1%)";
       d_description := Some "This case tests the search performance of a vector database with a large dataset (<b>OpenAI 5M vectors</b>, 1536 dimensions) under a low filtering rate (<b>1% vectors</b>), at varying parallel levels.
Results will show index building time, recall, and maximum QPS.";
       d_dataset := Some (Dataset.manager Dataset.OPENAI 5000000);
       d_load_timeout := Some (config.(LOAD_TIMEOUT_1536D_5M));
       d_optimize_timeout := Some (Some (config.(OPTIMIZE_TIMEOUT_1536D_5M)));
       d_filter_rate := Some (Some 0.01%float) |}.

Definition Performance1536D500K99P : ModelClass :=
  subclass PerformanceCase
    {| d_case_id := Some CaseType.Performance1536D500K99P;
       d_label := None;
       d_name := Some "Filtering Search Performance Test (500K Dataset, 1536 Dim, Filter 99%)";
       d_description := Some "This case tests the search performance of a vector database with a medium dataset (<b>OpenAI 500K vectors</b>, 1536 dimensions) under a high filtering rate (<b>99% vectors</b>), at varying parallel levels.
Results will show index building time, recall, and maximum QPS.";
       d_dataset := Some (Dataset.manager Dataset.OPENAI 500000);
       d_load_timeout := Some (config.(LOAD_TIMEOUT_1536D_500K));
       d_optimize_timeout := Some (Some (config.(OPTIMIZE_TIMEOUT_1536D_500K)));
       d_filter_rate := Some (Some 0.99%float) |}.

Definition Performance1536D5M99P : ModelClass :=
  subclass PerformanceCase
    {| d_case_id := Some CaseType.Performance1536D5M99P;
       d_label := None;
       d_name := Some "Filtering Search Performance Test (5M Dataset, 1536 Dim, Filter 99%)";
       d_description := Some "This case tests the search performance of a vector database with a medium dataset (<b>OpenAI 5M vectors</b>, 1536 dimensions) under a high filtering rate (<b>99% vectors</b>), at varying parallel levels.
Results will show index building time, recall, and maximum QPS.";
       d_dataset := Some (Dataset.manager Dataset.OPENAI 5000000);
       d_load_timeout := Some (config.(LOAD_TIMEOUT_1536D_5M));
       d_optimize_timeout := Some (Some (config.(OPTIMIZE_TIMEOUT_1536D_5M)));
       d_filter_rate := Some (Some 0.99%float) |}.

Definition Performance960D100K90P : ModelClass :=
  subclass PerformanceCase
    {| d_case_id := Some CaseType.Performance960D100K90P;
       d_label := None;
       d_name := Some "Filtering Search Performance Test (100K Dataset, 960 Dim, Filter 90%)";
       d_description := Some "This case tests the search performance of a vector database with a small dataset (<b>Gist 100k vectors</b>, 960 dimensions) under a filtering rate (<b>90% vectors</b>), at varying parallel levels.
Results will show index building time, recall, and maximum QPS.";
       d_dataset := Some (Dataset.manager Dataset.GIST 100000);
       d_load_timeout := Some (config.(LOAD_TIMEOUT_DEFAULT));
       d_optimize_timeout := Some (Some (config.(OPTIMIZE_TIMEOUT_DEFAULT)));
       d_filter_rate := Some (Some 0.9%float) |}.

Definition Performance128D500K90P : ModelClass :=
  subclass PerformanceCase
    {| d_case_id := Some CaseType.Performance128D500K90P;
       d_label := None;
       d_name := Some "Filtering Search Performance Test (500K Dataset, 128 Dim, Filter 90%)";
       d_description := Some "This case tests the search performance of a vector database with a small dataset (<b>Sift 500k vectors</b>, 128 dimensions) under a filtering rate (<b>90% vectors</b>), at varying parallel levels.
Results will show index building time, recall, and maximum QPS.";
       d_dataset := Some (Dataset.manager Dataset.SIFT 500000);
       d_load_timeout := Some (config.(LOAD_TIMEOUT_DEFAULT));
       d_optimize_timeout := Some (Some (config.(OPTIMIZE_TIMEOUT_DEFAULT)));
       d_filter_rate := Some (Some 0.9%float) |}.

Definition Performance960D100K80P : ModelClass :=
  subclass PerformanceCase
    {| d_case_id := Some CaseType.Performance960D100K80P;
       d_label := None;
       d_name := Some "Filtering Search Performance Test (100K Dataset, 960 Dim, Filter 80%)";
       d_description := Some "This case tests the search performance of a vector database with a small dataset (<b>Gist 100k vectors</b>, 960 dimensions) under a filtering rate (<b>80% vectors</b>), at varying parallel levels.
Results will show index building time, recall, and maximum QPS.";
       d_dataset := Some (Dataset.manager Dataset.GIST 100000);
       d_load_timeout := Some (config.(LOAD_TIMEOUT_DEFAULT));
       d_optimize_timeout := Some (Some (config.(OPTIMIZE_TIMEOUT_DEFAULT)));
       d_filter_rate := Some (Some 0.8%float) |}.

Definition Performance128D500K80P : ModelClass :=
  subclass PerformanceCase
    {| d_case_id := Some CaseType.Performance128D500K80P;
       d_label := None;
       d_name := Some "Filtering Search Performance Test (500K Dataset, 128 Dim, Filter 80%)";
       d_description := Some "This case tests the search performance of a vector database with a small dataset (<b>Sift 500k vectors</b>, 128 dimensions) under a filtering rate (<b>80% vectors</b>), at varying parallel levels.
Results will show index building time, recall, and maximum QPS.";
       d_dataset := Some (Dataset.manager Dataset.SIFT 500000);
       d_load_timeout := Some (config.(LOAD_TIMEOUT_DEFAULT));
       d_optimize_timeout := Some (Some (config.(OPTIMIZE_TIMEOUT_DEFAULT)));
       d_filter_rate := Some (Some 0.8%float) |}.

Definition Performance960D100K70P : ModelClass :=
  subclass PerformanceCase
    {| d_case_id := Some CaseType.Performance960D100K70P;
       d_label := None;
       d_name := Some "Filtering Search Performance Test (100K Dataset, 960 Dim, Filter 70%)";
       d_description := Some "This case tests the search performance of a vector database with a small dataset (<b>Gist 100k vectors</b>, 960 dimensions) under a filtering rate (<b>70% vectors</b>), at varying parallel levels.
Results will show index building time, recall, and maximum QPS.";
       d_dataset := Some (Dataset.manager Dataset.GIST 100000);
       d_load_timeout := Some (config.(LOAD_TIMEOUT_DEFAULT));
       d_optimize_timeout := Some (Some (config.(OPTIMIZE_TIMEOUT_DEFAULT)));
       d_filter_rate := Some (Some 0.7%float) |}.

Definition Performance128D500K70P : ModelClass :=
  subclass PerformanceCase
    {| d_case_id := Some CaseType.Performance128D500K70P;
       d_label := None;
       d_name := Some "Filtering Search Performance Test (500K Dataset, 128 Dim, Filter 70%)";
       d_description := Some "This case tests the search performance of a vector database with a small dataset (<b>Sift 500k vectors</b>, 128 dimensions) under a filtering rate (<b>70% vectors</b>), at varying parallel levels.
Results will show index building time, recall, and maximum QPS.";
       d_dataset := Some (Dataset.manager Dataset.SIFT 500000);
       d_load_timeout := Some (config.(LOAD_TIMEOUT_DEFAULT));
       d_optimize_timeout := Some (Some (config.(OPTIMIZE_TIMEOUT_DEFAULT)));
       d_filter_rate := Some (Some 0.7%float) |}.

Definition Performance960D100K60P : ModelClass :=
  subclass PerformanceCase
    {| d_case_id := Some CaseType.Performance960D100K60P;
       d_label := None;
       d_name := Some "Filtering Search Performance Test (100K Dataset, 960 Dim, Filter 60%)";
       d_description := Some "This case tests the search performance of a vector database with a small dataset (<b>Gist 100k vectors</b>, 960 dimensions) under a filtering rate (<b>60% vectors</b>), at varying parallel levels.
Results will show index building time, recall, and maximum QPS.";
       d_dataset := Some (Dataset.manager Dataset.GIST 100000);
       d_load_timeout := Some (config.(LOAD_TIMEOUT_DEFAULT));
       d_optimize_timeout := Some (Some (config.(OPTIMIZE_TIMEOUT_DEFAULT)));
       d_filter_rate := Some (Some 0.6%float) |}.

Definition Performance128D500K60P : ModelClass :=
  subclass PerformanceCase
    {| d_case_id := Some CaseType.Performance128D500K60P;
       d_label := None;
       d_name := Some "Filtering Search Performance Test (500K Dataset, 128 Dim, Filter 60%)";
       d_description := Some "This case tests the search performance of a vector database with a small dataset (<b>Sift 500k vectors</b>, 128 dimensions) under a filtering rate (<b>60% vectors</b>), at varying parallel levels.
Results will show index building time, recall, and maximum QPS.";
       d_dataset := Some (Dataset.manager Dataset.SIFT 500000);
       d_load_timeout := Some (config.(LOAD_TIMEOUT_DEFAULT));
       d_optimize_timeout := Some (Some (config.(OPTIMIZE_TIMEOUT_DEFAULT)));
       d_filter_rate := Some (Some 0.6%float) |}.

Definition Performance960D100K50P : ModelClass :=
  subclass PerformanceCase
    {| d_case_id := Some CaseType.Performance960D100K50P;
       d_label := None;
       d_name := Some "Filtering Search Performance Test (100K Dataset, 960 Dim, Filter 50%)";
       d_description := Some "This case tests the search performance of a vector database with a small dataset (<b>Gist 100k vectors</b>, 960 dimensions) under a filtering rate (<b>50% vectors</b>), at varying parallel levels.
Results will show index building time, recall, and maximum QPS.";
       d_dataset := Some (Dataset.manager Dataset.GIST 100000);
       d_load_timeout := Some (config.(LOAD_TIMEOUT_DEFAULT));
       d_optimize_timeout := Some (Some (config.(OPTIMIZE_TIMEOUT_DEFAULT)));
       d_filter_rate := Some (Some 0.5%float) |}.

Definition Performance128D500K50P : ModelClass :=
  subclass PerformanceCase
    {| d_case_id := Some CaseType.Performance128D500K50P;
       d_label := None;
       d_name := Some "Filtering Search Performance Test (500K Dataset, 128 Dim, Filter 50%)";
       d_description := Some "This case tests the search performance of a vector database with a small dataset (<b>Sift 500k vectors</b>, 128 dimensions) under a filtering rate (<b>50% vectors</b>), at varying parallel levels.
Results will show index building time, recall, and maximum QPS.";
       d_dataset := Some (Dataset.manager Dataset.SIFT 500000);
       d_load_timeout := Some (config.(LOAD_TIMEOUT_DEFAULT));
       d_optimize_timeout := Some (Some (config.(OPTIMIZE_TIMEOUT_DEFAULT)));
       d_filter_rate := Some (Some 0.5%float) |}.

Definition Performance960D100K40P : ModelClass :=
  subclass PerformanceCase
    {| d_case_id := Some CaseType.Performance960D100K40P;
       d_label := None;
       d_name := Some "Filtering Search Performance Test (100K Dataset, 960 Dim, Filter 40%)";
       d_description := Some "This case tests the search performance of a vector database with a small dataset (<b>Gist 100k vectors</b>, 960 dimensions) under a filtering rate (<b>40% vectors</b>), at varying parallel levels.
Results will show index building time, recall, and maximum QPS.";
       d_dataset := Some (Dataset.manager Dataset.GIST 100000);
       d_load_timeout := Some (config.(LOAD_TIMEOUT_DEFAULT));
       d_optimize_timeout := Some (Some (config.(OPTIMIZE_TIMEOUT_DEFAULT)));
       d_filter_rate := Some (Some 0.4%float) |}.

Definition Performance128D500K40P : ModelClass :=
  subclass PerformanceCase
    {| d_case_id := Some CaseType.Performance128D500K40P;
       d_label := None;
       d_name := Some "Filtering Search Performance Test (500K Dataset, 128 Dim, Filter 40%)";
       d_description := Some "This case tests the search performance of a vector database with a small dataset (<b>Sift 500k vectors</b>, 128 dimensions) under a filtering rate (<b>40% vectors</b>), at varying parallel levels.
Results will show index building time, recall, and maximum QPS.";
       d_dataset := Some (Dataset.manager Dataset.SIFT 500000);
       d_load_timeout := Some (config.(LOAD_TIMEOUT_DEFAULT));
       d_optimize_timeout := Some (Some (config.(OPTIMIZE_TIMEOUT_DEFAULT)));
       d_filter_rate := Some (Some 0.4%float) |}.

Definition Performance960D100K30P : ModelClass :=
  subclass PerformanceCase
    {| d_case_id := Some CaseType.Performance960D100K30P;
       d_label := None;
       d_name := Some "Filtering Search Performance Test (100K Dataset, 960 Dim, Filter 30%)";
       d_description := Some "This case tests the search performance of a vector database with a small dataset (<b>Gist 100k vectors</b>, 960 dimensions) under a filtering rate (<b>30% vectors</b>), at varying parallel levels.
Results will show index building time, recall, and maximum QPS.";
       d_dataset := Some (Dataset.manager Dataset.GIST 100000);
       d_load_timeout := Some (config.(LOAD_TIMEOUT_DEFAULT));
       d_optimize_timeout := Some (Some (config.(OPTIMIZE_TIMEOUT_DEFAULT)));
       d_filter_rate := Some (Some 0.3%float) |}.

Definition Performance128D500K30P : ModelClass :=
  subclass PerformanceCase
    {| d_case_id := Some CaseType.Performance128D500K30P;
       d_label := None;
       d_name := Some "Filtering Search Performance Test (500K Dataset, 128 Dim, Filter 30%)";
       d_description := Some "This case tests the search performance of a vector database with a small dataset (<b>Sift 500k vectors</b>, 128 dimensions) under a filtering rate (<b>30% vectors</b>), at varying parallel levels.
Results will show index building time, recall, and maximum QPS.";
       d_dataset := Some (Dataset.manager Dataset.SIFT 500000);
       d_load_timeout := Some (config.(LOAD_TIMEOUT_DEFAULT));
       d_optimize_timeout := Some (Some (config.(OPTIMIZE_TIMEOUT_DEFAULT)));
       d_filter_rate := Some (Some 0.3%float) |}.

Definition Performance960D100K20P : ModelClass :=
  subclass PerformanceCase
    {| d_case_id := Some CaseType.Performance960D100K20P;
       d_label := None;
       d_name := Some "Filtering Search Performance Test (100K Dataset, 960 Dim, Filter 20%)";
       d_description := Some "This case tests the search performance of a vector database with a small dataset (<b>Gist 100k vectors</b>, 960 dimensions) under a filtering rate (<b>20% vectors</b>), at varying parallel levels.
Results will show index building time, recall, and maximum QPS.";
       d_dataset := Some (Dataset.manager Dataset.GIST 100000);
       d_load_timeout := Some (config.(LOAD_TIMEOUT_DEFAULT));
       d_optimize_timeout := Some (Some (config.(OPTIMIZE_TIMEOUT_DEFAULT)));
       d_filter_rate := Some (Some 0.2%float) |}.

Definition Performance128D500K20P : ModelClass :=
  subclass PerformanceCase
    {| d_case_id := Some CaseType.Performance128D500K20P;
       d_label := None;
       d_name := Some "Filtering Search Performance Test (500K Dataset, 128 Dim, Filter 20%)";
       d_description := Some "This case tests the search performance of a vector database with a small dataset (<b>Sift 500k vectors</b>, 128 dimensions) under a filtering rate (<b>20% vectors</b>), at varying parallel levels.
Results will show index building time, recall, and maximum QPS.";
       d_dataset := Some (Dataset.manager Dataset.SIFT 500000);
       d_load_timeout := Some (config.(LOAD_TIMEOUT_DEFAULT));
       d_optimize_timeout := Some (Some (config.(OPTIMIZE_TIMEOUT_DEFAULT)));
       d_filter_rate := Some (Some 0.2%float) |}.

Definition Performance960D100K10P : ModelClass :=
  subclass PerformanceCase
    {| d_case_id := Some CaseType.Performance960D100K10P;
       d_label := None;
       d_name := Some "Filtering Search Performance Test (100K Dataset, 960 Dim, Filter 10%)";
       d_description := Some "This case tests the search performance of a vector database with a small dataset (<b>Gist 100k vectors</b>, 960 dimensions) under a filtering rate (<b>10% vectors</b>), at varying parallel levels.
Results will show index building time, recall, and maximum QPS.";
       d_dataset := Some (Dataset.manager Dataset.GIST 100000);
       d_load_timeout := Some (config.(LOAD_TIMEOUT_DEFAULT));
       d_optimize_timeout := Some (Some (config.(OPTIMIZE_TIMEOUT_DEFAULT)));
       d_filter_rate := Some (Some 0.1%float) |}.

Definition Performance128D500K10P : ModelClass :=
  subclass PerformanceCase
    {| d_case_id := Some CaseType.Performance128D500K10P;
       d_label := None;
       d_name := Some "Filtering Search Performance Test (500K Dataset, 128 Dim, Filter 10%)";
       d_description := Some "This case tests the search performance of a vector database with a small dataset (<b>Sift 500k vectors</b>, 128 dimensions) under a filtering rate (<b>10% vectors</b>), at varying parallel levels.
Results will show index building time, recall, and maximum QPS.";
       d_dataset := Some (Dataset.manager Dataset.SIFT 500000);
       d_load_timeout := Some (config.(LOAD_TIMEOUT_DEFAULT));
       d_optimize_timeout := Some (Some (config.(OPTIMIZE_TIMEOUT_DEFAULT)));
       d_filter_rate := Some (Some 0.1%float) |}.

(** The entries of the dictionary display [type2case = { ... }], as written. *)
Definition type2case_entries : list (CaseType.t * ModelClass) :=
    [ (CaseType.CapacityDim960, CapacityDim960);
      (CaseType.CapacityDim128, CapacityDim128);
      (CaseType.Performance768D100M, Performance768D100M);
      (CaseType.Performance768D10M, Performance768D10M);
      (CaseType.Performance768D1M, Performance768D1M);
      (CaseType.Performance768D10M1P, Performance768D10M1P);
      (CaseType.Performance768D1M1P, Performance768D1M1P);
      (CaseType.Performance768D10M99P, Performance768D10M99P);
      (CaseType.Performance768D1M99P, Performance768D1M99P);
      (CaseType.Performance1536D500K, Performance1536D500K);
      (CaseType.Performance1536D5M, Performance1536D5M);
      (CaseType.Performance1536D500K1P, Performance1536D500K1P);
      (CaseType.Performance1536D5M1P, Performance1536D5M1P);
      (CaseType.Performance1536D500K99P, Performance1536D500K99P);
      (CaseType.Performance1536D5M99P, Performance1536D5M99P);
      (CaseType.Performance960D100K90P, Performance960D100K90P);
      (CaseType.Performance128D500K90P, Performance128D500K90P);
      (CaseType.Performance960D100K80P, Performance960D100K80P);
      (CaseType.Performance128D500K80P, Performance128D500K80P);
      (CaseType.Performance960D100K70P, Performance960D100K70P);
      (CaseType.Performance128D500K70P, Performance128D500K70P);
      (CaseType.Performance960D100K60P, Performance960D100K60P);
      (CaseType.Performance128D500K60P, Performance128D500K60P);
      (CaseType.Performance960D100K50P, Performance960D100K50P);
      (CaseType.Performance128D500K50P, Performance128D500K50P);
      (CaseType.Performance960D100K40P, Performance960D100K40P);
      (CaseType.Performance128D500K40P, Performance128D500K40P);
      (CaseType.Performance960D100K30P, Performance960D100K30P);
      (CaseType.Performance128D500K30P, Performance128D500K30P);
      (CaseType.Performance960D100K20P, Performance960D100K20P);
      (CaseType.Performance128D500K20P, Performance128D500K20P);
      (CaseType.Performance960D100K10P, Performance960D100K10P);
      (CaseType.Performance128D500K10P, Performance128D500K10P) ].

Definition type2case : dict CaseType.t ModelClass :=
  dict_literal CaseType.eqb type2case_entries.

(** ** The accessors of [CaseType] *)

Definition case_cls (self : CaseType.t) : pyresult (option ModelClass) :=
  Ok (dict_get CaseType.eqb type2case self).

Definition case_name (self : CaseType.t) : pyresult string :=
  c <- case_cls self ;;
  match c with
  | Some c => m <- instantiate c ;; Ok (name m)
  | None => Raise (ValueError "Case unsupported")
  end.

Definition case_description (self : CaseType.t) : pyresult string :=
  c <- case_cls self ;;
  match c with
  | Some c => m <- instantiate c ;; Ok (description m)
  | None => Raise (ValueError "Case unsupported")
  end.

End Catalog.

(** ** Reading the predicate *)

(** Modelled from the spec: the consumer of the filter expression is not part
    of the sources.  The expression [">=T"] holds of an ordinal metadata value
    [v] when [v] is greater than or equal to [T]. *)
Definition eval_metadata (expr : string) (v : Z) : option bool :=
  match expr with
  | String ">" (String "=" rest) =>
      option_map (fun T => T <=? v) (int_of_str rest)
  | _ => None
  end.

Definition satisfies (p : FilterDict) (v : Z) : bool :=
  match eval_metadata (metadata p) v with
  | Some b => b
  | None => false
  end.

(** How many of the ordinal positions [0, 1, ..., n - 1] satisfy [p]. *)
Definition count_satisfying (p : FilterDict) (n : Z) : Z :=
  Z.of_nat
    (List.length
       (filter (fun i => satisfies p (Z.of_nat i)) (seq 0 (Z.to_nat n)))).

(** A descriptor supplied by a caller, outside the catalog. *)
Definition custom_case (rate : option float) (records : Z) : Case :=
  {| case_id := CaseType.Custom;
     label := Performance;
     name := "Custom";
     description := "Caller-defined case";
     dataset := Dataset.manager Dataset.SIFT records;
     load_timeout := PyInt 3600;
     optimize_timeout := Some (PyInt 900);
     filter_rate := rate |}.

(** A configuration to run the catalog with. *)
Definition example_config : Config :=
  {| CAPACITY_TIMEOUT_IN_SECONDS := PyInt 86400;
     LOAD_TIMEOUT_DEFAULT := PyFloat 9000;
     LOAD_TIMEOUT_768D_1M := PyFloat 9000;
     LOAD_TIMEOUT_768D_10M := PyInt 90000;
     LOAD_TIMEOUT_768D_100M := PyInt 900000;
     LOAD_TIMEOUT_1536D_500K := PyFloat 9000;
     LOAD_TIMEOUT_1536D_5M := PyInt 90000;
     OPTIMIZE_TIMEOUT_DEFAULT := PyInt 900;
     OPTIMIZE_TIMEOUT_768D_1M := PyInt 900;
     OPTIMIZE_TIMEOUT_768D_10M := PyInt 9000;
     OPTIMIZE_TIMEOUT_768D_100M := PyInt 90000;
     OPTIMIZE_TIMEOUT_1536D_500K := PyInt 900;
     OPTIMIZE_TIMEOUT_1536D_5M := PyInt 9000 |}.

(** The catalog entry for ten million records with a 1% filter, constructed. *)
Definition example_case : Case :=
  match instantiate (Performance768D10M1P example_config) with
  | Ok m => m
  | Raise _ => custom_case None 0
  end.

(** [math.isfinite]. *)
Definition float_is_finite (x : float) : bool :=
  match Prim2SF x with
  | S754_zero _ | S754_finite _ _ _ => true
  | S754_infinity _ | S754_nan => false
  end.

(** [self.dataset.data.size], the record count that [filters] reads. *)
Definition records (self : Case) : Z :=
  Dataset.size (Dataset.data (dataset self)).

(** A list of integers without repetition, decided. *)
Fixpoint distinctb (l : list Z) : bool :=
  match l with
  | [] => true
  | x :: l' => negb (existsb (Z.eqb x) l') && distinctb l'
  end.

(** The enumeration value of the identifier a class declares. *)
Definition class_key (cls : ModelClass) : Z :=
  match d_case_id cls with
  | Some t => CaseType.value t
  | None => 0
  end.

(** The entry over the same dataset with a 99% filter, constructed. *)
Definition example_case_99P : Case :=
  match instantiate (Performance768D10M99P example_config) with
  | Ok m => m
  | Raise _ => custom_case None 0
  end.

(** [math.isnan] and [math.isinf]. *)
Definition float_is_nan (x : float) : bool :=
  match Prim2SF x with
  | S754_nan => true
  | _ => false
  end.

Definition float_is_infinite (x : float) : bool :=
  match Prim2SF x with
  | S754_infinity _ => true
  | _ => false
  end.

(** [p / 100] for a small non-negative [int] [p]. *)
Definition percent (p : Z) : float :=
  (PrimFloat.of_uint63 (Uint63.of_Z p) / 100)%float.

(** A descriptor's threshold is the whole percentage of its record count that
    its rate names, strictly between nothing and everything; decided. *)
Definition threshold_is_percent (m : Case) : bool :=
  match filter_rate m with
  | None => true
  | Some rate =>
      match filters m with
      | Ok (Some p) =>
          (0 <? id p) && (id p <? records m)
          && ((100 * id p) mod records m =? 0)
          && (metadata p =? ">=" ++ str_int (id p))%string
          && (rate =? percent (100 * id p / records m))%float
      | _ => false
      end
  end.

(** The timeouts the catalog gives to the performance cases of a dataset. *)
Definition timeouts_by_dataset (config : Config) (d : Dataset.DatasetManager)
  : pynum * option pynum :=
  match Dataset.name (Dataset.data d), Dataset.size (Dataset.data d) with
  | Dataset.COHERE, 1000000 =>
      (config.(LOAD_TIMEOUT_768D_1M), Some (config.(OPTIMIZE_TIMEOUT_768D_1M)))
  | Dataset.COHERE, 10000000 =>
      (config.(LOAD_TIMEOUT_768D_10M), Some (config.(OPTIMIZE_TIMEOUT_768D_10M)))
  | Dataset.LAION, 100000000 =>
      (config.(LOAD_TIMEOUT_768D_100M), Some (config.(OPTIMIZE_TIMEOUT_768D_100M)))
  | Dataset.OPENAI, 500000 =>
      (config.(LOAD_TIMEOUT_1536D_500K), Some (config.(OPTIMIZE_TIMEOUT_1536D_500K)))
  | Dataset.OPENAI, 5000000 =>
      (config.(LOAD_TIMEOUT_1536D_5M), Some (config.(OPTIMIZE_TIMEOUT_1536D_5M)))
  | _, _ =>
      (config.(LOAD_TIMEOUT_DEFAULT), Some (config.(OPTIMIZE_TIMEOUT_DEFAULT)))
  end.

(** A list of strings without repetition, decided. *)
Fixpoint distinct_strings (l : list string) : bool :=
  match l with
  | [] => true
  | x :: l' => negb (existsb (String.eqb x) l') && distinct_strings l'
  end.

(** The presentation strings a class declares. *)
Definition class_name (cls : ModelClass) : string :=
  match d_name cls with
  | Some n => n
  | None => ""
  end.

Definition class_description (cls : ModelClass) : string :=
  match d_description cls with
  | Some n => n
  | None => ""
  end.

(** ** Equality of descriptors *)









(** The state of the right shift that rounding performs: after [k] steps of
    [shr_1] the mantissa is [m0 / 2 ^ k], and a set round or sticky bit means
    that something non-zero was shifted out. *)
Definition shr_inv (m0 : Z) (k : Z) (mrs : shr_record) : Prop :=
  shr_m mrs = m0 / 2 ^ k /\
  (shr_r mrs = true \/ shr_s mrs = true -> m0 mod 2 ^ k <> 0).

(** * Facts about binary64 rounding *)

Section Binary64.

Lemma digits2_pos_size (m : positive) : digits2_pos m = Pos.size m.
Proof. induction m; simpl; congruence. Qed.

(** [digits2_pos m] is the number of binary digits of [m]. *)
Lemma digits2_pos_bounds (m : positive) :
  2 ^ (Z.pos (digits2_pos m) - 1) <= Z.pos m < 2 ^ Z.pos (digits2_pos m).
Proof.
  rewrite digits2_pos_size. split.
  - pose proof (Pos.size_le m) as H.
    assert (Z.pos (2 ^ Pos.size m) <= Z.pos m~0) as H' by exact H.
    rewrite Pos2Z.inj_pow in H'.
    replace (Z.pos (Pos.size m)) with (Z.pos (Pos.size m) - 1 + 1) in H' by lia.
    rewrite Z.pow_add_r in H' by lia. lia.
  - pose proof (Pos.size_gt m) as H.
    assert (Z.pos m < Z.pos (2 ^ Pos.size m)) as H' by exact H.
    now rewrite Pos2Z.inj_pow in H'.
Qed.

Lemma iter_pos_iter {A : Type} (f : A -> A) (n : positive) (x : A) :
  iter_pos f n x = Pos.iter f x n.
Proof.
  revert x. induction n as [n IH|n IH|]; intros x; simpl.
  - rewrite !IH, <- !Pos.iter_swap. reflexivity.
  - rewrite !IH. reflexivity.
  - reflexivity.
Qed.

Lemma shr_1_m (mrs : shr_record) :
  0 <= shr_m mrs -> shr_m (shr_1 mrs) = shr_m mrs / 2.
Proof.
  destruct mrs as [m r s]; simpl. intros Hm.
  destruct m as [|[p|p|]|p]; cbn [shr_m]; try reflexivity; try lia.
  - apply Z.div_unique with (r := 1); lia.
  - apply Z.div_unique with (r := 0); lia.
Qed.

Lemma shr_1_r (mrs : shr_record) :
  0 <= shr_m mrs -> shr_r (shr_1 mrs) = Z.odd (shr_m mrs).
Proof.
  destruct mrs as [m r s]; simpl. intros Hm.
  destruct m as [|[p|p|]|p]; simpl; try reflexivity; lia.
Qed.

Lemma shr_1_s (mrs : shr_record) :
  shr_s (shr_1 mrs) = shr_r mrs || shr_s mrs.
Proof.
  destruct mrs as [m r s]; simpl.
  destruct m as [|[p|p|]|[p|p|]]; reflexivity.
Qed.

Lemma shr_inv_0 (m0 : Z) : shr_inv m0 0 (Build_shr_record m0 false false).
Proof.
  split; simpl.
  - now rewrite Z.div_1_r.
  - intros [H|H]; discriminate.
Qed.

Lemma shr_inv_step (m0 k : Z) (mrs : shr_record) :
  0 <= m0 -> 0 <= k ->
  shr_inv m0 k mrs -> shr_inv m0 (k + 1) (shr_1 mrs).
Proof.
  intros Hm0 Hk [Hm Hrs].
  assert (0 < 2 ^ k) as Hpow by (apply Z.pow_pos_nonneg; lia).
  assert (0 <= shr_m mrs) as Hpos by (rewrite Hm; apply Z.div_pos; lia).
  assert (2 ^ (k + 1) = 2 ^ k * 2) as Hk1 by (rewrite Z.pow_add_r; lia).
  split.
  - rewrite shr_1_m, Hm, Hk1 by assumption.
    rewrite Z.div_div by lia. reflexivity.
  - rewrite shr_1_r, shr_1_s by assumption.
    rewrite Hk1, Z.rem_mul_r by lia.
    pose proof (Z.mod_pos_bound m0 (2 ^ k) Hpow).
    pose proof (Z.mod_pos_bound (m0 / 2 ^ k) 2 ltac:(lia)).
    intros [Hodd|Hor].
    + pose proof (Zmod_odd (m0 / 2 ^ k)) as Hparity.
      rewrite Hm in Hodd. rewrite Hodd in Hparity. lia.
    + apply orb_true_iff in Hor. specialize (Hrs Hor). lia.
Qed.

Lemma shr_inv_iter (m0 : Z) (n : positive) :
  0 <= m0 ->
  shr_inv m0 (Z.pos n) (iter_pos shr_1 n (Build_shr_record m0 false false)).
Proof.
  intros Hm0. rewrite iter_pos_iter.
  apply Pos.iter_ind with (P := fun p mrs => shr_inv m0 (Z.pos p) mrs).
  - apply (shr_inv_step m0 0); [assumption|lia|apply shr_inv_0].
  - intros p mrs H. rewrite Pos2Z.inj_succ.
    apply shr_inv_step; [assumption|lia|assumption].
Qed.

(** [shr] by [n] places, for any [n]: a shift by [Z.max 0 n]. *)
Lemma shr_exact_inv (m0 e n : Z) :
  0 <= m0 ->
  let '(mrs, e') := shr (Build_shr_record m0 false false) e n in
  e' = e + Z.max 0 n /\ shr_inv m0 (Z.max 0 n) mrs.
Proof.
  intros Hm0. destruct n as [|p|p]; simpl.
  - split; [lia|apply shr_inv_0].
  - split; [lia|]. apply shr_inv_iter. assumption.
  - split; [lia|apply shr_inv_0].
Qed.

(** Rounding to nearest goes up only when something was shifted out. *)
Lemma round_nearest_even_bounds (m0 k : Z) (mrs : shr_record) :
  0 <= m0 -> 0 <= k -> shr_inv m0 k mrs ->
  let m := round_nearest_even (shr_m mrs) (loc_of_shr_record mrs) in
  0 <= m /\ (m - 1) * 2 ^ k < m0.
Proof.
  intros Hm0 Hk [Hm Hrs].
  assert (0 < 2 ^ k) as Hpow by (apply Z.pow_pos_nonneg; lia).
  pose proof (Z.div_mod m0 (2 ^ k) ltac:(lia)) as Hdm.
  pose proof (Z.mod_pos_bound m0 (2 ^ k) Hpow) as Hmod.
  assert (0 <= m0 / 2 ^ k) as Hq by (apply Z.div_pos; lia).
  destruct mrs as [m r s]; simpl in *. subst m.
  destruct r, s; simpl; try destruct (Z.even _); split; try lia;
    try (assert (m0 mod 2 ^ k <> 0) by (apply Hrs; auto)); nia.
Qed.


Lemma fexp_mono (a b : Z) : a <= b -> fexp prec emax a <= fexp prec emax b.
Proof. unfold fexp. lia. Qed.

(** The magnitude [digits + exponent] grows with the value; values are
    compared after scaling by [2 ^ c]. *)
Lemma magnitude_le (c : Z) (m1 : positive) (e1 : Z) (m2 : positive) (e2 : Z) :
  0 <= c + e1 -> 0 <= c + e2 ->
  Z.pos m1 * 2 ^ (c + e1) <= Z.pos m2 * 2 ^ (c + e2) ->
  Z.pos (digits2_pos m1) + e1 <= Z.pos (digits2_pos m2) + e2.
Proof.
  intros H1 H2 Hle.
  destruct (digits2_pos_bounds m1) as [Hlo _].
  destruct (digits2_pos_bounds m2) as [_ Hhi].
  assert (0 < 2 ^ (c + e1)) by (apply Z.pow_pos_nonneg; lia).
  assert (0 < 2 ^ (c + e2)) by (apply Z.pow_pos_nonneg; lia).
  assert (2 ^ (Z.pos (digits2_pos m1) - 1 + (c + e1))
          < 2 ^ (Z.pos (digits2_pos m2) + (c + e2))) as Hpow.
  { rewrite (Z.pow_add_r 2 (Z.pos (digits2_pos m1) - 1) (c + e1)) by lia.
    rewrite (Z.pow_add_r 2 (Z.pos (digits2_pos m2)) (c + e2)) by lia.
    apply Z.le_lt_trans with (Z.pos m1 * 2 ^ (c + e1)).
    - apply Z.mul_le_mono_nonneg_r; lia.
    - apply Z.le_lt_trans with (1 := Hle).
      apply Zmult_lt_compat_r; lia. }
  apply Z.pow_lt_mono_r_iff in Hpow; lia.
Qed.

Lemma canonical_mantissa_spec (m : positive) (e : Z) :
  canonical_mantissa prec emax m e = true ->
  fexp prec emax (Z.pos (digits2_pos m) + e) = e.
Proof. unfold canonical_mantissa. apply Z.eqb_eq. Qed.

Lemma round_up_below (mr mx mB K J P : Z) :
  0 < K -> 0 < J -> 0 < P ->
  (mr - 1) * K < mx ->
  mx * P <= mB * (J * K * P) ->
  mr * (K * P) <= mB * (J * K * P).
Proof.
  intros HK HJ HP Hr Hle.
  assert (mx <= mB * J * K) as H1.
  { apply Z.mul_le_mono_pos_r with (p := P); [assumption|]. lia. }
  assert (mr - 1 < mB * J) as H2.
  { apply Z.mul_lt_mono_pos_r with (p := K); [assumption|]. lia. }
  assert (mr <= mB * J) as H3 by lia.
  replace (mB * (J * K * P)) with (mB * J * (K * P)) by ring.
  apply Z.mul_le_mono_nonneg_r; [|assumption].
  apply Z.mul_nonneg_nonneg; lia.
Qed.

(** Rounding [mx * 2^ex] to binary64 never passes a binary64 value [mB * 2^eB]
    that lies above it. *)
Lemma binary_round_aux_le (c : Z) (s : bool) (mx : positive) (ex : Z)
    (mB : positive) (eB : Z) :
  bounded prec emax mB eB = true ->
  0 <= c + ex -> 0 <= c + eB ->
  ex <= fexp prec emax (Z.pos (digits2_pos mx) + ex) ->
  Z.pos mx * 2 ^ (c + ex) <= Z.pos mB * 2 ^ (c + eB) ->
  binary_round_aux prec emax s (Z.pos mx) ex loc_Exact = S754_zero s \/
  exists m e,
    binary_round_aux prec emax s (Z.pos mx) ex loc_Exact = S754_finite s m e /\
    0 <= c + e /\ Z.pos m * 2 ^ (c + e) <= Z.pos mB * 2 ^ (c + eB).
Proof.
  intros HB Hcx HcB Hex Hle.
  apply andb_true_iff in HB. destruct HB as [Hcan HeB].
  apply canonical_mantissa_spec in Hcan. apply Z.leb_le in HeB.
  pose proof (magnitude_le c mx ex mB eB Hcx HcB Hle) as Hmag.
  apply fexp_mono in Hmag. rewrite Hcan in Hmag.
  unfold binary_round_aux, shr_fexp.
  cbn [shr_record_of_loc Zdigits2].
  set (n1 := fexp prec emax (Z.pos (digits2_pos mx) + ex) - ex) in *.
  pose proof (shr_exact_inv (Z.pos mx) ex n1 ltac:(lia)) as H1.
  destruct (shr (Build_shr_record (Z.pos mx) false false) ex n1) as [mrs1 e1].
  destruct H1 as [He1 Hinv1].
  pose proof (round_nearest_even_bounds (Z.pos mx) (Z.max 0 n1) mrs1
                ltac:(lia) ltac:(lia) Hinv1) as Hrnd.
  cbv zeta in Hrnd.
  set (mr := round_nearest_even (shr_m mrs1) (loc_of_shr_record mrs1)) in *.
  destruct Hrnd as [Hmr0 Hmr].
  set (n2 := fexp prec emax (Zdigits2 mr + e1) - e1).
  pose proof (shr_exact_inv mr e1 n2 Hmr0) as H2.
  destruct (shr (Build_shr_record mr false false) e1 n2) as [mrs2 e2].
  destruct H2 as [He2 [Hm2 _]].
  assert (0 < 2 ^ Z.max 0 n1) as Hp1 by (apply Z.pow_pos_nonneg; lia).
  assert (0 < 2 ^ Z.max 0 n2) as Hp2 by (apply Z.pow_pos_nonneg; lia).
  assert (0 < 2 ^ (c + ex)) as Hpx by (apply Z.pow_pos_nonneg; lia).
  (* the rounded mantissa, at exponent [e1], is still below the bound *)
  assert (mr * 2 ^ (c + e1) <= Z.pos mB * 2 ^ (c + eB)) as Hbound.
  { assert (e1 <= eB) as He1B by (unfold n1 in *; lia).
    assert (0 < 2 ^ (eB - e1)) by (apply Z.pow_pos_nonneg; lia).
    replace (c + eB) with ((eB - e1) + Z.max 0 n1 + (c + ex)) in * by lia.
    replace (c + e1) with (Z.max 0 n1 + (c + ex)) by lia.
    rewrite (Z.pow_add_r 2 (Z.max 0 n1) (c + ex)) by lia.
    rewrite (Z.pow_add_r 2 (eB - e1 + Z.max 0 n1) (c + ex)) in * by lia.
    rewrite (Z.pow_add_r 2 (eB - e1) (Z.max 0 n1)) in * by lia.
    apply round_up_below with (mx := Z.pos mx); assumption. }
  assert (0 <= shr_m mrs2) as Hm2pos by (rewrite Hm2; apply Z.div_pos; lia).
  destruct (shr_m mrs2) as [|m2|m2] eqn:Em2; [now left| |lia].
  right. exists m2, e2.
  assert (0 < mr) as Hmrpos.
  { destruct (Z.eq_dec mr 0) as [E|E]; [|lia].
    rewrite E, Z.div_0_l in Hm2 by lia. discriminate. }
  assert (e2 <= eB) as He2B.
  { destruct mr as [|pr|pr]; try lia. cbn [Zdigits2] in n2.
    pose proof (magnitude_le c pr e1 mB eB ltac:(lia) HcB Hbound) as Hmag2.
    apply fexp_mono in Hmag2. rewrite Hcan in Hmag2. lia. }
  replace (e2 <=? emax - prec) with true by (symmetry; apply Z.leb_le; lia).
  split; [reflexivity|]. split; [lia|].
  apply Z.le_trans with (2 := Hbound).
  replace (c + e2) with (Z.max 0 n2 + (c + e1)) by lia.
  rewrite Z.pow_add_r by lia.
  pose proof (Z.mul_div_le mr (2 ^ Z.max 0 n2) Hp2).
  assert (0 < 2 ^ (c + e1)) by (apply Z.pow_pos_nonneg; lia).
  rewrite Hm2. nia.
Qed.


(** A value already in canonical form is left alone. *)
Lemma binary_round_aux_canonical (s : bool) (m : positive) (e : Z) :
  bounded prec emax m e = true ->
  binary_round_aux prec emax s (Z.pos m) e loc_Exact = S754_finite s m e.
Proof.
  intros HB. apply andb_true_iff in HB. destruct HB as [Hcan He].
  apply canonical_mantissa_spec in Hcan.
  unfold binary_round_aux, shr_fexp. cbn [shr_record_of_loc Zdigits2].
  rewrite Hcan, Z.sub_diag. cbn [shr shr_m loc_of_shr_record round_nearest_even].
  cbn [shr_record_of_loc Zdigits2]. rewrite Hcan, Z.sub_diag. cbn [shr shr_m].
  rewrite He. reflexivity.
Qed.

Lemma iter_xO_value (m k : positive) :
  Z.pos (Pos.iter xO m k) = Z.pos m * 2 ^ Z.pos k.
Proof.
  induction k as [|k IH] using Pos.peano_ind.
  - cbn [Pos.iter]. lia.
  - rewrite Pos.iter_succ, Pos2Z.inj_xO, IH, Pos2Z.inj_succ, Z.pow_succ_r by lia.
    ring.
Qed.

Lemma iter_xO_digits (m k : positive) :
  Z.pos (digits2_pos (Pos.iter xO m k)) = Z.pos (digits2_pos m) + Z.pos k.
Proof.
  induction k as [|k IH] using Pos.peano_ind.
  - simpl. lia.
  - rewrite Pos.iter_succ. cbn [digits2_pos]. lia.
Qed.

(** Products of canonical mantissas reach [binary_round_aux] with an exponent
    that is not above the canonical one, as the rounding expects. *)
Lemma mul_exponent_below (mx : positive) (ex : Z) (my : positive) (ey : Z) :
  canonical_mantissa prec emax mx ex = true ->
  canonical_mantissa prec emax my ey = true ->
  ex + ey <= fexp prec emax (Z.pos (digits2_pos (mx * my)) + (ex + ey)).
Proof.
  intros Hx Hy.
  apply canonical_mantissa_spec in Hx. apply canonical_mantissa_spec in Hy.
  destruct (digits2_pos_bounds mx) as [Hx1 _].
  destruct (digits2_pos_bounds my) as [Hy1 _].
  destruct (digits2_pos_bounds (mx * my)) as [_ Hxy].
  assert (2 ^ (Z.pos (digits2_pos mx) - 1 + (Z.pos (digits2_pos my) - 1))
          < 2 ^ Z.pos (digits2_pos (mx * my))) as Hpow.
  { rewrite Z.pow_add_r by lia.
    apply Z.le_lt_trans with (2 := Hxy). rewrite Pos2Z.inj_mul.
    apply Z.mul_le_mono_nonneg; try assumption; apply Z.pow_nonneg; lia. }
  apply Z.pow_lt_mono_r_iff in Hpow; [|lia|lia].
  unfold fexp, SpecFloat.emin, prec, emax in *. lia.
Qed.

(** Every [int] up to [2^53] converts to [float] without rounding. *)
Lemma binary_normalize_small (n : Z) :
  0 < n <= 2 ^ 53 ->
  exists m e,
    binary_normalize prec emax n 0 false = S754_finite false m e /\
    bounded prec emax m e = true /\
    -52 <= e /\
    forall c, 52 <= c -> Z.pos m * 2 ^ (c + e) = n * 2 ^ c.
Proof.
  intros [Hpos Hle]. destruct n as [|p|p]; try lia.
  destruct (Z.eq_dec (Z.pos p) (2 ^ 53)) as [E|E].
  - rewrite E. exists 4503599627370496%positive, 1.
    repeat split; try reflexivity; try lia.
    intros c Hc. rewrite Z.pow_add_r by lia. change (2 ^ 53) with 9007199254740992. lia.
  - assert (Z.pos p < 2 ^ 53) as Hlt by lia.
    destruct (digits2_pos_bounds p) as [Hlo _].
    assert (Z.pos (digits2_pos p) - 1 < 53) as Hd.
    { apply (Z.pow_lt_mono_r_iff 2); lia. }
    cbn [binary_normalize]. unfold binary_round.
    assert (fexp prec emax (Z.pos (digits2_pos p) + 0)
            = Z.pos (digits2_pos p) - 53) as Hf
        by (unfold fexp, SpecFloat.emin, prec, emax; lia).
    rewrite Hf. unfold shl_align.
    destruct (Z.pos (digits2_pos p) - 53 - 0) as [|k|k] eqn:Ek; try lia.
    + assert (bounded prec emax p 0 = true) as HB.
      { unfold bounded, canonical_mantissa. rewrite Hf.
        apply andb_true_iff. split; [apply Z.eqb_eq; lia|reflexivity]. }
      exists p, 0. rewrite binary_round_aux_canonical by assumption.
      repeat split; try assumption; try lia.
      intros c Hc. now rewrite Z.add_0_r.
    + assert (bounded prec emax (Pos.iter xO p k)
                (Z.pos (digits2_pos p) - 53) = true) as HB.
      { unfold bounded, canonical_mantissa. rewrite iter_xO_digits.
        apply andb_true_iff. split.
        - apply Z.eqb_eq. unfold fexp, SpecFloat.emin, prec, emax. lia.
        - apply Z.leb_le. unfold prec, emax. lia. }
      exists (Pos.iter xO p k), (Z.pos (digits2_pos p) - 53).
      rewrite binary_round_aux_canonical by assumption.
      repeat split; try assumption; try lia.
      intros c Hc. rewrite iter_xO_value.
      replace c with (Z.pos k + (c + (Z.pos (digits2_pos p) - 53))) at 2 by lia.
      rewrite (Z.pow_add_r 2 (Z.pos k)) by lia. ring.
Qed.

(** The integer nearest to a value that lies between [0] and an integer [n]
    lies there too. *)
Lemma round_half_even_bounds (c : Z) (m : positive) (e n : Z) :
  0 <= c -> 0 <= c + e ->
  Z.pos m * 2 ^ (c + e) <= n * 2 ^ c ->
  0 <= round_half_even m e <= n.
Proof.
  intros Hc Hce Hle. unfold round_half_even.
  assert (0 < 2 ^ c) as Hpc by (apply Z.pow_pos_nonneg; lia).
  assert (0 < 2 ^ (c + e)) as Hpce by (apply Z.pow_pos_nonneg; lia).
  destruct (0 <=? e) eqn:He.
  - apply Z.leb_le in He.
    assert (0 < 2 ^ e) by (apply Z.pow_pos_nonneg; lia).
    rewrite Z.pow_add_r in Hle by lia. split; [lia|].
    apply Z.mul_le_mono_pos_r with (p := 2 ^ c); [assumption|]. lia.
  - apply Z.leb_gt in He.
    set (d := 2 ^ (- e)).
    assert (0 < d) as Hd by (apply Z.pow_pos_nonneg; lia).
    assert (2 ^ c = 2 ^ (c + e) * d) as Hsplit.
    { unfold d. rewrite <- Z.pow_add_r by lia. f_equal. lia. }
    assert (Z.pos m <= n * d) as Hm.
    { apply Z.mul_le_mono_pos_r with (p := 2 ^ (c + e)); [assumption|].
      rewrite Hsplit in Hle. lia. }
    pose proof (Z.div_mod (Z.pos m) d ltac:(lia)) as Hdm.
    pose proof (Z.mod_pos_bound (Z.pos m) d Hd) as Hmod.
    assert (0 <= Z.pos m / d) as Hq by (apply Z.div_pos; lia).
    assert (Z.pos m / d <= n) as Hqn.
    { apply Z.div_le_upper_bound; lia. }
    assert (0 < Z.pos m mod d -> Z.pos m / d + 1 <= n) as Hup.
    { intros Hr.
      assert (Z.pos m / d < n); [|lia].
      apply Z.mul_lt_mono_pos_l with (p := d); lia. }
    destruct (2 * (Z.pos m mod d) ?= d) eqn:Ecmp.
    + apply Z.compare_eq_iff in Ecmp. destruct (Z.even _); lia.
    + lia.
    + apply Z.compare_gt_iff in Ecmp. lia.
Qed.

(** A float in [(0, 1]] is a positive finite value of at most one. *)
Lemma unit_interval_spec (r : float) :
  (0 <? r)%float = true -> (r <=? 1)%float = true ->
  exists m e,
    Prim2SF r = S754_finite false m e /\
    bounded prec emax m e = true /\
    -1074 <= e /\
    forall c, 1074 <= c -> Z.pos m * 2 ^ (c + e) <= 2 ^ c.
Proof.
  intros Hlt Hle. rewrite ltb_spec in Hlt. rewrite leb_spec in Hle.
  pose proof (Prim2SF_valid r) as Hv.
  assert (Prim2SF 0 = S754_zero false) as E0 by (vm_compute; reflexivity).
  assert (Prim2SF 1 = S754_finite false 4503599627370496 (-52)) as E1
      by (vm_compute; reflexivity).
  rewrite E0 in Hlt. rewrite E1 in Hle. clear E0 E1.
  destruct (Prim2SF r) as [s|s| |s m e].
  - discriminate.
  - destruct s; discriminate.
  - discriminate.
  - destruct s; [cbn in Hlt; discriminate|]. 
    cbn [valid_binary] in Hv. exists m, e.
    pose proof Hv as HB. apply andb_true_iff in HB. destruct HB as [Hcan _].
    apply canonical_mantissa_spec in Hcan.
    destruct (digits2_pos_bounds m) as [_ Hhi].
    assert (Z.pos (digits2_pos m) <= 53 /\ -1074 <= e) as [Hd He]
        by (unfold fexp, SpecFloat.emin, prec, emax in Hcan; lia).
        assert (Z.pos m < 2 ^ 53) as Hm.
    { apply Z.lt_le_trans with (1 := Hhi). apply Z.pow_le_mono_r; lia. }
        repeat split; try assumption.
        intros c Hc.
    unfold SFleb, SFcompare in Hle.
    destruct (Z.compare_spec e (-52)) as [Ee|Ee|Ee].
    + subst e.
      assert (Z.pos m <= 2 ^ 52) as Hm52.
      { assert (2 ^ 52 = Z.pos 4503599627370496) as E52
            by (vm_compute; reflexivity).
        rewrite E52. clear E52.
        pose proof (Pos.compare_spec m 4503599627370496) as Hs.
        unfold Pos.compare in Hs.
        destruct Hs as [Em|Em|Em].
        - rewrite Em. apply Z.le_refl.
        - apply Pos2Z.pos_le_pos, Pos.lt_le_incl, Em.
        - discriminate Hle. }
            replace c with (52 + (c + -52)) at 2 by lia.
      rewrite (Z.pow_add_r 2 52) by lia.
      apply Z.mul_le_mono_nonneg_r; [apply Z.pow_nonneg; lia|assumption].
    +       replace c with (- e + (c + e)) at 2 by lia.
      rewrite (Z.pow_add_r 2 (- e)) by lia.
      apply Z.mul_le_mono_nonneg_r; [apply Z.pow_nonneg; lia|].
      apply Z.le_trans with (2 ^ 53); [lia|].
      apply Z.pow_le_mono_r; lia.
    + discriminate.
Qed.

(** For a rate in [(0, 1]] and a record count of at most [2^53] the threshold
    [round(rate * n)] is computed without error and lies in [[0, n]]. *)
Lemma threshold_in_range (rate : float) (n : Z) :
  (0 <? rate)%float = true -> (rate <=? 1)%float = true ->
  0 <= n <= 2 ^ 53 ->
  exists x T,
    float_mul_int rate n = Ok x /\ py_round x = Ok T /\ 0 <= T <= n.
Proof.
  intros Hlt Hle [Hn0 Hn].
  destruct (unit_interval_spec rate Hlt Hle) as (mr & er & Er & Br & Her & Vr).
  assert (Prim2SF 0 = S754_zero false) as E0 by (vm_compute; reflexivity).
  destruct (Z.eq_dec n 0) as [->|Hnz].
  - exists (rate * 0)%float, 0. split; [reflexivity|]. split; [|lia].
    unfold py_round. rewrite mul_spec, Er, E0. reflexivity.
  - destruct (binary_normalize_small n ltac:(lia))
      as (mn & en & En & Bn & Hen & Vn).
    exists (rate * SF2Prim (S754_finite false mn en))%float.
    assert (float_mul_int rate n
            = Ok (rate * SF2Prim (S754_finite false mn en))%float) as Ef.
    { unfold float_mul_int, float_of_int. rewrite En. reflexivity. }
    unfold py_round.
    rewrite mul_spec, Prim2SF_SF2Prim, Er by exact Bn.
    unfold SF64mul, SFmul. cbn [xorb].
    pose proof Br as Br'. pose proof Bn as Bn'.
    apply andb_true_iff in Br'. destruct Br' as [Cr _].
    apply andb_true_iff in Bn'. destruct Bn' as [Cn _].
    assert (0 < 2 ^ (52 + en)) as Hp1 by (apply Z.pow_pos_nonneg; lia).
    destruct (binary_round_aux_le 1126 false (mr * mn) (er + en) mn en)
      as [Ez|(m & e & Ee & Hce & Hv)].
    + exact Bn.
    + lia.
    + lia.
    + apply mul_exponent_below; assumption.
    + specialize (Vr 1074 ltac:(lia)).
      replace (1126 + (er + en)) with ((1074 + er) + (52 + en)) by lia.
      replace (1126 + en) with (1074 + (52 + en)) by lia.
      rewrite (Z.pow_add_r 2 (1074 + er) (52 + en)) by lia.
      rewrite (Z.pow_add_r 2 1074 (52 + en)) by lia.
      rewrite Pos2Z.inj_mul.
      replace (Z.pos mr * Z.pos mn * (2 ^ (1074 + er) * 2 ^ (52 + en)))
        with ((Z.pos mr * 2 ^ (1074 + er)) * (Z.pos mn * 2 ^ (52 + en)))
        by ring.
      replace (Z.pos mn * (2 ^ 1074 * 2 ^ (52 + en)))
        with (2 ^ 1074 * (Z.pos mn * 2 ^ (52 + en))) by ring.
      apply Z.mul_le_mono_nonneg_r; [lia|exact Vr].
    + rewrite Ez. exists 0. repeat split; try assumption; lia.
    + rewrite Ee. exists (round_half_even m e). cbn [cond_Zopp].
      split; [exact Ef|]. split; [reflexivity|].
      apply round_half_even_bounds with (c := 1126); [lia|assumption|].
      rewrite <- (Vn 1126) by lia. exact Hv.
Qed.

End Binary64.

(** * The predicate as text and as a count *)

(** ** Strings of integers *)

Lemma int_of_str_str_int (n : Z) : int_of_str (str_int n) = Some n.
Proof.
  unfold int_of_str, str_int.
  rewrite NilZero.isi.
  - cbn [option_map]. now rewrite DecimalZ.of_to.
  - destruct n; cbn; try discriminate.
    intros H. injection H as H. now apply Unsigned.to_uint_nonnil in H.
  - destruct n; cbn; try discriminate.
    intros H. injection H as H. now apply Unsigned.to_uint_nonnil in H.
Qed.

Lemma eval_metadata_ge (T v : Z) :
  eval_metadata (">=" ++ str_int T) v = Some (T <=? v).
Proof.
  cbn [append eval_metadata]. now rewrite int_of_str_str_int.
Qed.

(** ** Counting positions *)

Lemma count_below_threshold (t n : nat) :
  (n <= t)%nat ->
  List.length (filter (fun i => Z.of_nat t <=? Z.of_nat i) (seq 0 n)) = 0%nat.
Proof.
  induction n as [|n IH]; intros Hle.
  - reflexivity.
  - rewrite seq_S, filter_app, length_app, IH by lia. cbn [filter Nat.add].
    replace (Z.of_nat t <=? Z.of_nat n) with false
      by (symmetry; apply Z.leb_gt; lia).
    reflexivity.
Qed.

Lemma count_from_threshold (t n : nat) :
  (t <= n)%nat ->
  List.length (filter (fun i => Z.of_nat t <=? Z.of_nat i) (seq 0 n))
  = (n - t)%nat.
Proof.
  induction n as [|n IH]; intros Hle.
  - reflexivity.
  - rewrite seq_S, filter_app, length_app. cbn [filter Nat.add].
    destruct (Nat.eq_dec t (S n)) as [->|Hne].
    + rewrite count_below_threshold by lia.
      replace (Z.of_nat (S n) <=? Z.of_nat n) with false
        by (symmetry; apply Z.leb_gt; lia).
      cbn [List.length]. lia.
    + replace (Z.of_nat t <=? Z.of_nat n) with true
        by (symmetry; apply Z.leb_le; lia).
      cbn [List.length]. rewrite IH by lia. lia.
Qed.

(** Of the positions [0 .. n - 1], exactly [n - T] satisfy [">=T"] when the
    threshold lies in [[0, n]]. *)
Lemma count_satisfying_ge (T n : Z) :
  0 <= T <= n ->
  count_satisfying {| metadata := ">=" ++ str_int T; id := T |} n = n - T.
Proof.
  intros [H0 Hn]. unfold count_satisfying, satisfies. cbn [metadata].
  rewrite (filter_ext _ (fun i => Z.of_nat (Z.to_nat T) <=? Z.of_nat i)).
  - rewrite count_from_threshold by lia. lia.
  - intros i. rewrite eval_metadata_ge, Z2Nat.id by lia. reflexivity.
Qed.

(** A threshold above [n] leaves no position, whatever [n - T] is. *)
Lemma count_satisfying_none (T n : Z) :
  n <= T ->
  count_satisfying {| metadata := ">=" ++ str_int T; id := T |} n = 0.
Proof.
  intros Hle. unfold count_satisfying, satisfies. cbn [metadata].
  destruct (Z.le_gt_cases n 0) as [Hn|Hn].
  - replace (Z.to_nat n) with 0%nat by lia. reflexivity.
  - rewrite (filter_ext _ (fun i => Z.of_nat (Z.to_nat T) <=? Z.of_nat i)).
    + rewrite count_below_threshold by lia. reflexivity.
    + intros i. rewrite eval_metadata_ge, Z2Nat.id by lia. reflexivity.
Qed.

(** * The filter predicate *)

Lemma filters_with_rate (self : Case) (rate : float) :
  filter_rate self = Some rate ->
  filters self =
    (x <- float_mul_int rate (records self) ;;
     ID <- py_round x ;;
     Ok (Some {| metadata := ">=" ++ str_int ID; id := ID |})).
Proof. intros H. unfold filters. now rewrite H. Qed.

Lemma filters_computed (self : Case) (rate x : float) (T : Z) :
  filter_rate self = Some rate ->
  float_mul_int rate (records self) = Ok x ->
  py_round x = Ok T ->
  filters self = Ok (Some {| metadata := ">=" ++ str_int T; id := T |}).
Proof.
  intros Hr Hx HT. rewrite (filters_with_rate self rate Hr), Hx.
  cbn [bind]. now rewrite HT.
Qed.

(** C1 (as amended): for a descriptor whose rate lies in [(0, 1]] and whose
    record count [N] is at most [2^53], [filters] returns the predicate whose
    threshold is [round(rate * N)]; its text means "ordinal value greater than
    or equal to the threshold", and exactly [N - threshold] of the positions
    [0 .. N - 1] satisfy it.  A rate of 0.01 over 1,000,000 records gives
    10,000, and a rate of 0.99 gives 990,000. *)
Theorem C1_filter_threshold (self : Case) (rate : float) :
  filter_rate self = Some rate ->
  (0 <? rate)%float = true -> (rate <=? 1)%float = true ->
  0 <= records self <= 2 ^ 53 ->
  exists x T,
    float_mul_int rate (records self) = Ok x /\ py_round x = Ok T /\
    filters self = Ok (Some {| metadata := ">=" ++ str_int T; id := T |}) /\
    (forall v, eval_metadata (">=" ++ str_int T) v = Some (T <=? v)) /\
    count_satisfying {| metadata := ">=" ++ str_int T; id := T |} (records self)
    = records self - T /\
    (rate = 0.01%float -> records self = 1000000 -> T = 10000) /\
    (rate = 0.99%float -> records self = 1000000 -> T = 990000).
Proof.
  intros Hr Hlt Hle Hn.
  destruct (threshold_in_range rate (records self) Hlt Hle Hn)
    as (x & T & Hx & HT & HTn).
  exists x, T. split; [exact Hx|]. split; [exact HT|].
  split; [exact (filters_computed self rate x T Hr Hx HT)|].
  split; [intros v; apply eval_metadata_ge|].
  split; [apply count_satisfying_ge; exact HTn|].
  split; intros -> E; rewrite E in Hx; vm_compute in Hx;
    injection Hx as <-; vm_compute in HT; now injection HT as <-.
Qed.

Lemma C1_filter_threshold_witness :
  exists x T,
    float_mul_int 0.01 (records (custom_case (Some 0.01%float) 1000000)) = Ok x /\
    py_round x = Ok T /\
    filters (custom_case (Some 0.01%float) 1000000)
    = Ok (Some {| metadata := ">=" ++ str_int T; id := T |}) /\
    (forall v, eval_metadata (">=" ++ str_int T) v = Some (T <=? v)) /\
    count_satisfying {| metadata := ">=" ++ str_int T; id := T |}
      (records (custom_case (Some 0.01%float) 1000000))
    = records (custom_case (Some 0.01%float) 1000000) - T /\
    (0.01%float = 0.01%float ->
     records (custom_case (Some 0.01%float) 1000000) = 1000000 -> T = 10000) /\
    (0.01%float = 0.99%float ->
     records (custom_case (Some 0.01%float) 1000000) = 1000000 -> T = 990000).
Proof.
  apply (C1_filter_threshold (custom_case (Some 0.01%float) 1000000) 0.01).
  - reflexivity.
  - vm_compute. reflexivity.
  - vm_compute. reflexivity.
  - unfold records, custom_case. cbn. split; [lia|].
    apply Z.leb_le. vm_compute. reflexivity.
Defined.

(** C1, the claim as stated fails: a rate above one, and a record count that
    a float cannot hold, both put the threshold above the record count, where
    no position satisfies the predicate. *)
Lemma C1_counterexample :
  (filters (custom_case (Some 2%float) 10)
   = Ok (Some {| metadata := ">=20"; id := 20 |}) /\
   count_satisfying {| metadata := ">=20"; id := 20 |} 10 = 0 /\
   10 - 20 = -10) /\
  (filters (custom_case (Some 1%float) 9007199254740995)
   = Ok (Some {| metadata := ">=9007199254740996"; id := 9007199254740996 |}) /\
   count_satisfying
     {| metadata := ">=9007199254740996"; id := 9007199254740996 |}
     9007199254740995 = 0 /\
   9007199254740995 - 9007199254740996 = -1).
Proof.
  split; split.
  - vm_compute. reflexivity.
  - split; [vm_compute; reflexivity|reflexivity].
  - vm_compute. reflexivity.
  - split; [|reflexivity].
    apply (count_satisfying_none 9007199254740996 9007199254740995).
    apply Z.leb_le. vm_compute. reflexivity.
Qed.

(** * Lookup in the registry *)

Lemma distinctb_NoDup (l : list Z) : distinctb l = true -> NoDup l.
Proof.
  induction l as [|x l IH]; intros H; constructor.
  - cbn in H. apply andb_true_iff in H. destruct H as [H _].
    intros Hin. apply negb_true_iff in H.
    assert (existsb (Z.eqb x) l = true) as Hex.
    { apply existsb_exists. exists x. split; [assumption|apply Z.eqb_refl]. }
    congruence.
  - cbn in H. apply andb_true_iff in H. now apply IH.
Qed.

Lemma NoDup_by_key {A : Type} (key : A -> Z) (l : list A) :
  distinctb (map key l) = true -> NoDup l.
Proof. intros H. apply (NoDup_map_inv key). now apply distinctb_NoDup. Qed.

Lemma of_value_value (a : CaseType.t) :
  CaseType.of_value (CaseType.value a) = Ok a.
Proof. destruct a; reflexivity. Qed.

Lemma value_inj (a b : CaseType.t) :
  CaseType.value a = CaseType.value b -> a = b.
Proof.
  intros H. pose proof (of_value_value a) as Ha. rewrite H in Ha.
  rewrite of_value_value in Ha. congruence.
Qed.

Lemma CaseType_eqb_eq (a b : CaseType.t) : CaseType.eqb a b = true <-> a = b.
Proof.
  unfold CaseType.eqb. rewrite Z.eqb_eq. split; [apply value_inj|now intros ->].
Qed.

Lemma dict_get_In {V : Type} (d : dict CaseType.t V) (k : CaseType.t) (v : V) :
  dict_get CaseType.eqb d k = Some v -> In (k, v) d.
Proof.
  induction d as [|[k' v'] d IH]; cbn [dict_get]; intros H; [discriminate|].
  destruct (CaseType.eqb k' k) eqn:E.
  - apply CaseType_eqb_eq in E. injection H as ->. subst. now left.
  - right. now apply IH.
Qed.

(** No key is written twice in the display, so the dictionary holds the
    entries as written. *)
Lemma type2case_unfold (config : Config) :
  type2case config = type2case_entries config.
Proof. reflexivity. Qed.

Lemma registry_custom (config : Config) :
  dict_get CaseType.eqb (type2case config) CaseType.Custom = None.
Proof. rewrite type2case_unfold. reflexivity. Qed.

(** Every identifier but [Custom] is registered under a class that
    instantiates to a descriptor carrying that identifier. *)
Lemma registry_complete (config : Config) (t : CaseType.t) :
  t <> CaseType.Custom ->
  exists cls m,
    dict_get CaseType.eqb (type2case config) t = Some cls /\
    instantiate cls = Ok m /\ case_id m = t /\
    (label m = Load <-> optimize_timeout m = None) /\
    (label m = Load -> filter_rate m = None).
Proof.
  intros Ht. rewrite type2case_unfold.
  destruct t; try contradiction;
    (eexists; eexists; split; [reflexivity|]; split; [reflexivity|];
     split; [reflexivity|]; cbn; split; [split|];
     intros; try discriminate; reflexivity).
Qed.

(** * The registry and the catalog *)

Lemma case_cls_custom (config : Config) :
  case_cls config CaseType.Custom = Ok None.
Proof. unfold case_cls. now rewrite registry_custom. Qed.

Lemma case_cls_registered (config : Config) (t : CaseType.t) (cls : ModelClass) :
  case_cls config t = Ok (Some cls) ->
  t <> CaseType.Custom /\ dict_get CaseType.eqb (type2case config) t = Some cls.
Proof.
  intros H. split.
  - intros ->. rewrite case_cls_custom in H. discriminate.
  - unfold case_cls in H. congruence.
Qed.

(** C2 (as amended): [case_cls] never raises.  For [Custom], the one
    identifier without a registered class, it returns [None]; for every other
    identifier it returns the class written beside it in [type2case]. *)
Theorem C2_case_cls_lookup (config : Config) (t : CaseType.t) :
  (t = CaseType.Custom /\ case_cls config t = Ok None) \/
  (t <> CaseType.Custom /\
   exists cls,
     case_cls config t = Ok (Some cls) /\ In (t, cls) (type2case_entries config)).
Proof.
  destruct (CaseType.eqb t CaseType.Custom) eqn:E.
  - apply CaseType_eqb_eq in E. subst. left. split; [reflexivity|].
    apply case_cls_custom.
  - assert (t <> CaseType.Custom) as Ht.
    { intros ->. cbn in E. discriminate. }
    right. split; [exact Ht|].
    destruct (registry_complete config t Ht) as (cls & m & Hget & _).
    exists cls. split.
    + unfold case_cls. now rewrite Hget.
    + rewrite <- type2case_unfold. now apply dict_get_In.
Qed.

(** C2, the claim as stated fails: resolving [Custom] raises nothing, it
    returns [None]. *)
Lemma C2_counterexample :
  case_cls example_config CaseType.Custom = Ok None /\
  case_name example_config CaseType.Custom
  = Raise (ValueError "Case unsupported").
Proof. split; reflexivity. Qed.

(** C3 (as amended): [filters] validates neither the rate nor the record
    count.  It raises only when the arithmetic does: [OverflowError] when the
    count does not convert to a float, and the error of [round] when the
    product is not finite.  With no records and a finite rate the threshold is
    [0]; whenever the product is finite the threshold is its rounding, as
    computed and not clamped. *)
Theorem C3_filters_no_validation (self : Case) (rate : float) :
  filter_rate self = Some rate ->
  (forall e, filters self = Raise e ->
     (e = OverflowError "int too large to convert to float" /\
      float_of_int (records self) = Raise e) \/
     (exists x, float_mul_int rate (records self) = Ok x /\
                float_is_finite x = false /\ py_round x = Raise e)) /\
  (records self = 0 -> float_is_finite rate = true ->
   filters self = Ok (Some {| metadata := ">=0"; id := 0 |})) /\
  (forall x, float_mul_int rate (records self) = Ok x ->
     float_is_finite x = true ->
     exists T, py_round x = Ok T /\
       filters self = Ok (Some {| metadata := ">=" ++ str_int T; id := T |})).
Proof.
  intros Hr. rewrite (filters_with_rate self rate Hr). split; [|split].
  - intros e He. unfold float_mul_int in *.
    destruct (float_of_int (records self)) as [nf|e'] eqn:Ef; cbn [bind] in *.
    + right. exists (rate * nf)%float. split; [reflexivity|].
      destruct (py_round (rate * nf)) as [T|e0] eqn:Ep; cbn [bind] in He;
        [discriminate|].
      injection He as <-. split; [|reflexivity].
      unfold py_round in Ep. unfold float_is_finite.
      destruct (Prim2SF (rate * nf)); try discriminate; reflexivity.
    + left. injection He as <-. split; [|reflexivity].
      unfold float_of_int in Ef.
      destruct (binary_normalize prec emax (records self) 0 false);
        try discriminate; now injection Ef as <-.
  - intros Hn Hfin. rewrite Hn.
    change (float_mul_int rate 0) with (Ok (rate * 0)%float). cbn [bind].
    assert (py_round (rate * 0) = Ok 0) as ->; [|reflexivity].
    unfold py_round. rewrite mul_spec.
    assert (Prim2SF 0 = S754_zero false) as -> by (vm_compute; reflexivity).
    unfold float_is_finite in Hfin.
    destruct (Prim2SF rate); try discriminate; reflexivity.
  - intros x Hx Hfin. rewrite Hx. cbn [bind].
    unfold float_is_finite in Hfin. unfold py_round.
    destruct (Prim2SF x); try discriminate; eexists; split; reflexivity.
Qed.

Lemma C3_filters_no_validation_witness :
  (forall e, filters (custom_case (Some 2%float) 10) = Raise e ->
     (e = OverflowError "int too large to convert to float" /\
      float_of_int (records (custom_case (Some 2%float) 10)) = Raise e) \/
     (exists x,
        float_mul_int 2 (records (custom_case (Some 2%float) 10)) = Ok x /\
        float_is_finite x = false /\ py_round x = Raise e)) /\
  (records (custom_case (Some 2%float) 10) = 0 -> float_is_finite 2 = true ->
   filters (custom_case (Some 2%float) 10)
   = Ok (Some {| metadata := ">=0"; id := 0 |})) /\
  (forall x,
     float_mul_int 2 (records (custom_case (Some 2%float) 10)) = Ok x ->
     float_is_finite x = true ->
     exists T, py_round x = Ok T /\
       filters (custom_case (Some 2%float) 10)
       = Ok (Some {| metadata := ">=" ++ str_int T; id := T |})).
Proof.
  apply (C3_filters_no_validation (custom_case (Some 2%float) 10) 2).
  reflexivity.
Defined.

(** C3, the claim as stated fails: with no records, and with rates outside
    [(0, 1]], [filters] returns a predicate. *)
Lemma C3_counterexample :
  filters (custom_case (Some 0.5%float) 0)
  = Ok (Some {| metadata := ">=0"; id := 0 |}) /\
  filters (custom_case (Some 1.5%float) 10)
  = Ok (Some {| metadata := ">=15"; id := 15 |}) /\
  filters (custom_case (Some (-0.5)%float) 10)
  = Ok (Some {| metadata := ">=-5"; id := -5 |}) /\
  filters (custom_case (Some 0%float) 10)
  = Ok (Some {| metadata := ">=0"; id := 0 |}).
Proof. repeat split; vm_compute; reflexivity. Qed.

(** C4: every descriptor of the catalog labelled [Performance] has an
    optimize timeout, and every one labelled [Load] has none. *)
Theorem C4_optimize_timeout_by_label
    (config : Config) (t : CaseType.t) (cls : ModelClass) (m : Case) :
  case_cls config t = Ok (Some cls) ->
  instantiate cls = Ok m ->
  (label m = Performance -> optimize_timeout m <> None) /\
  (label m = Load -> optimize_timeout m = None).
Proof.
  intros Hcls Hm. apply case_cls_registered in Hcls. destruct Hcls as [Ht Hget].
  destruct (registry_complete config t Ht) as (cls' & m' & Hget' & Hm' & _ & Hiff & _).
  assert (cls' = cls) as -> by congruence.
  assert (m' = m) as -> by congruence.
  split.
  - intros Hl Hnone. apply Hiff in Hnone. congruence.
  - apply Hiff.
Qed.

Lemma C4_optimize_timeout_by_label_witness :
  (label example_case = Performance -> optimize_timeout example_case <> None) /\
  (label example_case = Load -> optimize_timeout example_case = None).
Proof.
  apply (C4_optimize_timeout_by_label example_config
           CaseType.Performance768D10M1P
           (Performance768D10M1P example_config) example_case).
  - reflexivity.
  - reflexivity.
Defined.

(** C5: the registry holds exactly one entry for every identifier of the
    enumeration but [Custom] and none for [Custom]; its keys are free of
    duplicates, and there are as many of them as registered classes, which are
    pairwise distinct. *)
Theorem C5_registry_bijective (config : Config) :
  (forall t,
     List.length
       (filter (fun kv => CaseType.eqb (fst kv) t) (type2case config))
     = if CaseType.eqb t CaseType.Custom then 0%nat else 1%nat) /\
  dict_get CaseType.eqb (type2case config) CaseType.Custom = None /\
  NoDup (dict_keys (type2case config)) /\
  NoDup (dict_values (type2case config)) /\
  List.length (dict_keys (type2case config))
  = List.length (dict_values (type2case config)) /\
  List.length (dict_keys (type2case config))
  = Nat.pred (List.length CaseType.members).
Proof.
  rewrite type2case_unfold. repeat split.
  - intros t. destruct t; reflexivity.
  - apply (NoDup_by_key CaseType.value). vm_compute. reflexivity.
  - apply (NoDup_by_key class_key). vm_compute. reflexivity.
Qed.

(** C6: every identifier but [Custom] resolves to a class whose descriptor
    carries the identifier it was resolved from. *)
Theorem C6_resolve_round_trip (config : Config) (t : CaseType.t) :
  t <> CaseType.Custom ->
  exists cls m,
    case_cls config t = Ok (Some cls) /\ instantiate cls = Ok m /\
    case_id m = t.
Proof.
  intros Ht.
  destruct (registry_complete config t Ht) as (cls & m & Hget & Hm & Hid & _).
  exists cls, m. unfold case_cls. rewrite Hget. auto.
Qed.

Lemma C6_resolve_round_trip_witness :
  exists cls m,
    case_cls example_config CaseType.Performance768D10M1P = Ok (Some cls) /\
    instantiate cls = Ok m /\ case_id m = CaseType.Performance768D10M1P.
Proof.
  apply (C6_resolve_round_trip example_config CaseType.Performance768D10M1P).
  discriminate.
Defined.

(** C7 (as amended): for [Custom], the unsupported identifier, [case_name] and
    [case_description] both raise [ValueError "Case unsupported"], whereas
    [case_cls] returns [None] and raises nothing; for every other identifier
    they return the name and the description of the constructed descriptor. *)
Theorem C7_name_and_description (config : Config) (t : CaseType.t) :
  (t = CaseType.Custom /\ case_cls config t = Ok None /\
   case_name config t = Raise (ValueError "Case unsupported") /\
   case_description config t = Raise (ValueError "Case unsupported")) \/
  (t <> CaseType.Custom /\
   exists cls m,
     case_cls config t = Ok (Some cls) /\ instantiate cls = Ok m /\
     case_name config t = Ok (name m) /\
     case_description config t = Ok (description m)).
Proof.
  destruct (CaseType.eqb t CaseType.Custom) eqn:E.
  - apply CaseType_eqb_eq in E. subst. left.
    unfold case_name, case_description. rewrite case_cls_custom. auto.
  - assert (t <> CaseType.Custom) as Ht.
    { intros ->. cbn in E. discriminate. }
    right. split; [exact Ht|].
    destruct (registry_complete config t Ht) as (cls & m & Hget & Hm & _).
    exists cls, m.
    assert (case_cls config t = Ok (Some cls)) as Hcls
        by (unfold case_cls; now rewrite Hget).
    unfold case_name, case_description. rewrite Hcls. cbn [bind].
    rewrite Hm. auto.
Qed.

(** C7, the claim as stated fails: on [Custom] the accessors raise while
    [case_cls] does not, so they do not fail with its error. *)
Lemma C7_counterexample :
  case_name example_config CaseType.Custom
  = Raise (ValueError "Case unsupported") /\
  case_description example_config CaseType.Custom
  = Raise (ValueError "Case unsupported") /\
  case_cls example_config CaseType.Custom = Ok None.
Proof. repeat split; reflexivity. Qed.

(** C8: [filters] returns [None] exactly when no rate is set; the entry for
    ten million records with a 1% filter resolves, constructs and has the
    threshold 100,000; the two capacity entries resolve and construct [Load]
    descriptors with no rate, no predicate and no optimize timeout; and every
    registered identifier resolves to a descriptor that is either one of
    these two [Load] descriptors, with no predicate and no optimize timeout,
    or a [Performance] descriptor, which has an optimize timeout. *)
Theorem C8_filters_none_iff :
  (forall self, filters self = Ok None <-> filter_rate self = None) /\
  (forall config, exists cls m,
     case_cls config CaseType.Performance768D10M1P = Ok (Some cls) /\
     instantiate cls = Ok m /\
     records m = 10000000 /\ filter_rate m = Some 0.01%float /\
     filters m = Ok (Some {| metadata := ">=100000"; id := 100000 |})) /\
  (forall config, exists cls m,
     case_cls config CaseType.CapacityDim960 = Ok (Some cls) /\
     instantiate cls = Ok m /\ label m = Load /\
     filter_rate m = None /\ filters m = Ok None /\
     optimize_timeout m = None) /\
  (forall config, exists cls m,
     case_cls config CaseType.CapacityDim128 = Ok (Some cls) /\
     instantiate cls = Ok m /\ label m = Load /\
     filter_rate m = None /\ filters m = Ok None /\
     optimize_timeout m = None) /\
  (forall config t,
     t = CaseType.Custom \/
     exists cls m,
       case_cls config t = Ok (Some cls) /\ instantiate cls = Ok m /\
       ((label m = Load /\
         (t = CaseType.CapacityDim960 \/ t = CaseType.CapacityDim128) /\
         filters m = Ok None /\ optimize_timeout m = None) \/
        (label m = Performance /\ exists timeout,
           optimize_timeout m = Some timeout))).
Proof.
  split; [|split; [|split; [|split]]].
  - intros self. unfold filters.
    destruct (filter_rate self) as [rate|]; split; intros H;
      try discriminate; try reflexivity.
    destruct (float_mul_int _ _) as [x|e]; cbn [bind] in H; [|discriminate].
    destruct (py_round x); cbn [bind] in H; discriminate.
  - intros config. eexists. eexists.
    split; [unfold case_cls; rewrite type2case_unfold; reflexivity|].
    split; [reflexivity|]. split; [reflexivity|]. split; [reflexivity|].
    vm_compute. reflexivity.
  - intros config. eexists. eexists.
    split; [unfold case_cls; rewrite type2case_unfold; reflexivity|].
    repeat (split; [reflexivity|]). reflexivity.
  - intros config. eexists. eexists.
    split; [unfold case_cls; rewrite type2case_unfold; reflexivity|].
    repeat (split; [reflexivity|]). reflexivity.
  - intros config t. unfold case_cls. rewrite type2case_unfold.
    destruct t;
      try (left; reflexivity);
      (right; eexists; eexists; split; [reflexivity|]; split; [reflexivity|];
       first [ left; split; [reflexivity|]; split;
               [first [left; reflexivity | right; reflexivity]|];
               split; reflexivity
             | right; split; [reflexivity|]; eexists; reflexivity ]).
Qed.





(** C10: the two fields of a derived predicate carry one threshold: [id] is
    [round(rate * size)] for the record count read at the call, and the text
    after [">="] in [metadata] is that same number. *)
Theorem C10_fields_agree (self : Case) (rate : float) (p : FilterDict) :
  filter_rate self = Some rate ->
  filters self = Ok (Some p) ->
  exists x,
    float_mul_int rate (records self) = Ok x /\
    py_round x = Ok (id p) /\
    metadata p = ">=" ++ str_int (id p) /\
    exists rest, metadata p = ">=" ++ rest /\ int_of_str rest = Some (id p).
Proof.
  intros Hr Hp. rewrite (filters_with_rate self rate Hr) in Hp.
  destruct (float_mul_int rate (records self)) as [x|e]; cbn [bind] in Hp;
    [|discriminate].
  destruct (py_round x) as [T|e] eqn:HT; cbn [bind] in Hp; [|discriminate].
  injection Hp as <-. cbn [id metadata].
  exists x. split; [reflexivity|]. split; [exact HT|].
  split; [reflexivity|].
  exists (str_int T). split; [reflexivity|apply int_of_str_str_int].
Qed.

Lemma C10_fields_agree_witness :
  exists x,
    float_mul_int 0.01 (records example_case) = Ok x /\
    py_round x = Ok (id {| metadata := ">=100000"; id := 100000 |}) /\
    metadata {| metadata := ">=100000"; id := 100000 |}
    = ">=" ++ str_int (id {| metadata := ">=100000"; id := 100000 |}) /\
    exists rest,
      metadata {| metadata := ">=100000"; id := 100000 |} = ">=" ++ rest /\
      int_of_str rest = Some (id {| metadata := ">=100000"; id := 100000 |}).
Proof.
  apply (C10_fields_agree example_case 0.01
           {| metadata := ">=100000"; id := 100000 |}).
  - reflexivity.
  - vm_compute. reflexivity.
Defined.

(** * Further properties of the catalog *)

(** * The enumeration *)

(** X1: the members of [CaseType] have pairwise distinct values, listed in
    increasing order, so no member is an alias of another; looking a member up
    by its value gives it back, and a number that is no member's value is
    refused with [ValueError]. *)
Theorem X1_case_type_values :
  (forall a b, CaseType.value a = CaseType.value b -> a = b) /\
  (forall t, In t CaseType.members) /\
  StronglySorted Z.lt (map CaseType.value CaseType.members) /\
  (forall t, CaseType.of_value (CaseType.value t) = Ok t) /\
  (forall n t, CaseType.of_value n = Ok t -> CaseType.value t = n) /\
  (forall n e, CaseType.of_value n = Raise e ->
     e = ValueError (str_int n ++ " is not a valid CaseType") /\
     forall t, CaseType.value t <> n).
Proof.
  split; [exact value_inj|].
  assert (forall t, In t CaseType.members) as Hall.
  { intros t. destruct t; cbn; tauto. }
  split; [exact Hall|]. split.
  - cbn. repeat (constructor; [|repeat constructor; lia]). constructor.
  - split; [exact of_value_value|]. split.
    + intros n t H. unfold CaseType.of_value in H.
      destruct (find _ CaseType.members) as [m|] eqn:E; [|discriminate].
      injection H as <-. apply find_some in E. destruct E as [_ E].
      now apply Z.eqb_eq in E.
    + intros n e H. unfold CaseType.of_value in H.
      destruct (find _ CaseType.members) as [m|] eqn:E; [discriminate|].
      injection H as <-. split; [reflexivity|].
      intros t Ht. pose proof (find_none _ _ E t (Hall t)) as Hne.
      cbn beta in Hne. apply Z.eqb_neq in Hne. contradiction.
Qed.

(** * The catalog, entry by entry *)

(** What every registered class gives once instantiated. *)
Lemma registry_catalog (config : Config) (t : CaseType.t) :
  t <> CaseType.Custom ->
  exists cls m,
    dict_get CaseType.eqb (type2case config) t = Some cls /\
    instantiate cls = Ok m /\
    threshold_is_percent m = true /\
    records m <= 2 ^ 53 /\
    (label m = Performance ->
     (load_timeout m, optimize_timeout m)
     = timeouts_by_dataset config (dataset m)) /\
    (label m = Load <->
     t = CaseType.CapacityDim128 \/ t = CaseType.CapacityDim960) /\
    (label m = Load ->
     load_timeout m = config.(CAPACITY_TIMEOUT_IN_SECONDS)).
Proof.
  intros Ht. rewrite type2case_unfold.
  destruct t; try contradiction;
    (eexists; eexists; split; [reflexivity|]; split; [reflexivity|];
     split; [vm_compute; reflexivity|];
     split; [apply Z.leb_le; vm_compute; reflexivity|];
     split; [intros; try discriminate; reflexivity|];
     split; [split; [intros; try discriminate; tauto
                    |intros [H|H]; try discriminate H; reflexivity]
            |intros; try discriminate; reflexivity]).
Qed.

Lemma resolved (config : Config) (t : CaseType.t) (cls : ModelClass) (m : Case) :
  case_cls config t = Ok (Some cls) -> instantiate cls = Ok m ->
  t <> CaseType.Custom /\
  forall cls' m',
    dict_get CaseType.eqb (type2case config) t = Some cls' ->
    instantiate cls' = Ok m' -> cls' = cls /\ m' = m.
Proof.
  intros Hcls Hm. apply case_cls_registered in Hcls. destruct Hcls as [Ht Hget].
  split; [exact Ht|]. intros cls' m' Hget' Hm'.
  assert (cls' = cls) as -> by congruence. split; congruence.
Qed.

(** X2: every catalog entry with a filter rate derives its predicate without
    error.  The rate is [P / 100] for a whole number [P] from 1 to 99, and the
    threshold [round(rate * N)] that [filters] computes in floating point is
    exactly [P] percent of the record count [N]: rounding never shifts it.  It
    lies strictly between [0] and [N], so the predicate selects some records
    but not all: exactly [N - T] of the positions [0 .. N - 1]. *)
Theorem X2_catalog_thresholds
    (config : Config) (t : CaseType.t) (cls : ModelClass) (m : Case)
    (rate : float) :
  case_cls config t = Ok (Some cls) -> instantiate cls = Ok m ->
  filter_rate m = Some rate ->
  exists x T P,
    float_mul_int rate (records m) = Ok x /\ py_round x = Ok T /\
    filters m = Ok (Some {| metadata := ">=" ++ str_int T; id := T |}) /\
    1 <= P <= 99 /\ (rate =? percent P)%float = true /\
    100 * T = P * records m /\
    0 < T < records m /\
    count_satisfying {| metadata := ">=" ++ str_int T; id := T |} (records m)
    = records m - T.
Proof.
  intros Hcls Hm Hr. destruct (resolved config t cls m Hcls Hm) as [Ht Huniq].
  destruct (registry_catalog config t Ht) as (cls' & m' & Hget & Hm' & Hok & _).
  destruct (Huniq cls' m' Hget Hm') as [-> ->].
  unfold threshold_is_percent in Hok. rewrite Hr in Hok.
  rewrite (filters_with_rate m rate Hr) in Hok.
  destruct (float_mul_int rate (records m)) as [x|e] eqn:Hx; cbn [bind] in Hok;
    [|discriminate].
  destruct (py_round x) as [T|e] eqn:HT; cbn [bind] in Hok; [|discriminate].
  cbn [id metadata] in Hok.
  apply andb_true_iff in Hok. destruct Hok as [Hok Hrate].
  apply andb_true_iff in Hok. destruct Hok as [Hok _].
  apply andb_true_iff in Hok. destruct Hok as [Hok Hmod].
  apply andb_true_iff in Hok. destruct Hok as [H0 HN].
  apply Z.eqb_eq in Hmod. apply Z.ltb_lt in H0. apply Z.ltb_lt in HN.
  assert (100 * T = records m * (100 * T / records m)) as Hdiv.
  { apply Z.div_exact; lia. }
  exists x, T, (100 * T / records m).
  split; [reflexivity|]. split; [exact HT|].
  split; [exact (filters_computed m rate x T Hr Hx HT)|].
  split; [nia|]. split; [exact Hrate|]. split; [lia|]. split; [lia|].
  apply count_satisfying_ge. lia.
Qed.

Lemma X2_catalog_thresholds_witness :
  exists x T P,
    float_mul_int 0.01 (records example_case) = Ok x /\ py_round x = Ok T /\
    filters example_case
    = Ok (Some {| metadata := ">=" ++ str_int T; id := T |}) /\
    1 <= P <= 99 /\ (0.01 =? percent P)%float = true /\
    100 * T = P * records example_case /\
    0 < T < records example_case /\
    count_satisfying {| metadata := ">=" ++ str_int T; id := T |}
      (records example_case)
    = records example_case - T.
Proof.
  apply (X2_catalog_thresholds example_config CaseType.Performance768D10M1P
           (Performance768D10M1P example_config) example_case 0.01);
    reflexivity.
Defined.

(** X3: the timeouts of a performance case depend on its dataset alone: two
    performance entries of the catalog over the same dataset reference have
    the same load timeout and the same optimize timeout. *)
Theorem X3_timeouts_follow_dataset
    (config : Config) (t1 t2 : CaseType.t) (c1 c2 : ModelClass) (m1 m2 : Case) :
  case_cls config t1 = Ok (Some c1) -> instantiate c1 = Ok m1 ->
  case_cls config t2 = Ok (Some c2) -> instantiate c2 = Ok m2 ->
  label m1 = Performance -> label m2 = Performance ->
  dataset m1 = dataset m2 ->
  load_timeout m1 = load_timeout m2 /\
  optimize_timeout m1 = optimize_timeout m2.
Proof.
  intros H1 Hm1 H2 Hm2 Hl1 Hl2 Hd.
  destruct (resolved config t1 c1 m1 H1 Hm1) as [Ht1 Hu1].
  destruct (resolved config t2 c2 m2 H2 Hm2) as [Ht2 Hu2].
  destruct (registry_catalog config t1 Ht1)
    as (c1' & m1' & Hg1 & Hi1 & _ & _ & Hto1 & _).
  destruct (registry_catalog config t2 Ht2)
    as (c2' & m2' & Hg2 & Hi2 & _ & _ & Hto2 & _).
  destruct (Hu1 c1' m1' Hg1 Hi1) as [-> ->].
  destruct (Hu2 c2' m2' Hg2 Hi2) as [-> ->].
  specialize (Hto1 Hl1). specialize (Hto2 Hl2).
  rewrite Hd in Hto1. split; congruence.
Qed.

Lemma X3_timeouts_follow_dataset_witness :
  load_timeout example_case = load_timeout example_case_99P /\
  optimize_timeout example_case = optimize_timeout example_case_99P.
Proof.
  apply (X3_timeouts_follow_dataset example_config
           CaseType.Performance768D10M1P CaseType.Performance768D10M99P
           (Performance768D10M1P example_config)
           (Performance768D10M99P example_config)
           example_case example_case_99P); reflexivity.
Defined.

(** X4: exactly the two capacity identifiers resolve to [Load] descriptors,
    every other registered identifier to a [Performance] one; the [Load]
    descriptors take the capacity timeout as their load timeout. *)
Theorem X4_load_cases
    (config : Config) (t : CaseType.t) (cls : ModelClass) (m : Case) :
  case_cls config t = Ok (Some cls) -> instantiate cls = Ok m ->
  (label m = Load <->
   t = CaseType.CapacityDim128 \/ t = CaseType.CapacityDim960) /\
  (label m = Load ->
   load_timeout m = config.(CAPACITY_TIMEOUT_IN_SECONDS)).
Proof.
  intros Hcls Hm. destruct (resolved config t cls m Hcls Hm) as [Ht Huniq].
  destruct (registry_catalog config t Ht)
    as (cls' & m' & Hget & Hm' & _ & _ & _ & Hiff & Hcap).
  destruct (Huniq cls' m' Hget Hm') as [-> ->].
  split; assumption.
Qed.

Lemma X4_load_cases_witness :
  (label example_case = Load <->
   CaseType.Performance768D10M1P = CaseType.CapacityDim128 \/
   CaseType.Performance768D10M1P = CaseType.CapacityDim960) /\
  (label example_case = Load ->
   load_timeout example_case = example_config.(CAPACITY_TIMEOUT_IN_SECONDS)).
Proof.
  apply (X4_load_cases example_config CaseType.Performance768D10M1P
           (Performance768D10M1P example_config) example_case); reflexivity.
Defined.

(** * Presentation strings *)

Lemma distinct_strings_NoDup (l : list string) :
  distinct_strings l = true -> NoDup l.
Proof.
  induction l as [|x l IH]; intros H; constructor.
  - cbn in H. apply andb_true_iff in H. destruct H as [H _].
    intros Hin. apply negb_true_iff in H.
    assert (existsb (String.eqb x) l = true) as Hex.
    { apply existsb_exists. exists x. split; [assumption|apply String.eqb_refl]. }
    congruence.
  - cbn in H. apply andb_true_iff in H. now apply IH.
Qed.

Lemma NoDup_map_injective {A B : Type} (f : A -> B) (l : list A) (x y : A) :
  NoDup (map f l) -> In x l -> In y l -> f x = f y -> x = y.
Proof.
  induction l as [|a l IH]; intros Hnd Hx Hy Hf; [contradiction|].
  cbn [map] in Hnd. inversion Hnd as [|? ? Hnotin Hnd']. subst.
  destruct Hx as [->|Hx]; destruct Hy as [->|Hy].
  - reflexivity.
  - exfalso. apply Hnotin. rewrite Hf. now apply in_map.
  - exfalso. apply Hnotin. rewrite <- Hf. now apply in_map.
  - now apply IH.
Qed.

Lemma instantiate_presentation (cls : ModelClass) (m : Case) :
  instantiate cls = Ok m ->
  class_name cls = name m /\ class_description cls = description m.
Proof.
  unfold instantiate, required, class_name, class_description.
  destruct (d_case_id cls); cbn [bind]; [|discriminate].
  destruct (d_label cls); cbn [bind]; [|discriminate].
  destruct (d_name cls); cbn [bind]; [|discriminate].
  destruct (d_description cls); cbn [bind]; [|discriminate].
  destruct (d_dataset cls); cbn [bind]; [|discriminate].
  destruct (d_load_timeout cls); cbn [bind]; [|discriminate].
  destruct (d_optimize_timeout cls); cbn [bind]; [|discriminate].
  destruct (d_filter_rate cls); cbn [bind]; [|discriminate].
  intros H. injection H as <-. split; reflexivity.
Qed.

Lemma catalog_names_distinct (config : Config) :
  NoDup (map (fun kv => class_name (snd kv)) (type2case_entries config)) /\
  NoDup (map (fun kv => class_description (snd kv)) (type2case_entries config)).
Proof.
  split; apply distinct_strings_NoDup; vm_compute; reflexivity.
Qed.

Lemma case_name_inv (config : Config) (t : CaseType.t) (n : string) :
  case_name config t = Ok n ->
  exists cls, In (t, cls) (type2case_entries config) /\ class_name cls = n.
Proof.
  unfold case_name, case_cls. cbn [bind].
  destruct (dict_get CaseType.eqb (type2case config) t) as [cls|] eqn:E;
    [|discriminate].
  destruct (instantiate cls) as [m|e] eqn:Em; cbn [bind]; [|discriminate].
  intros H. injection H as <-. exists cls. split.
  - rewrite <- type2case_unfold. now apply dict_get_In.
  - now apply instantiate_presentation.
Qed.

Lemma case_description_inv (config : Config) (t : CaseType.t) (d : string) :
  case_description config t = Ok d ->
  exists cls,
    In (t, cls) (type2case_entries config) /\ class_description cls = d.
Proof.
  unfold case_description, case_cls. cbn [bind].
  destruct (dict_get CaseType.eqb (type2case config) t) as [cls|] eqn:E;
    [|discriminate].
  destruct (instantiate cls) as [m|e] eqn:Em; cbn [bind]; [|discriminate].
  intros H. injection H as <-. exists cls. split.
  - rewrite <- type2case_unfold. now apply dict_get_In.
  - now apply instantiate_presentation.
Qed.

(** X5: the presentation strings identify the case: two identifiers with the
    same [case_name], or with the same [case_description], are the same
    identifier. *)
Theorem X5_names_identify_cases
    (config : Config) (t1 t2 : CaseType.t) (n1 n2 d1 d2 : string) :
  case_name config t1 = Ok n1 -> case_name config t2 = Ok n2 ->
  case_description config t1 = Ok d1 -> case_description config t2 = Ok d2 ->
  (n1 = n2 -> t1 = t2) /\ (d1 = d2 -> t1 = t2).
Proof.
  intros Hn1 Hn2 Hd1 Hd2.
  destruct (catalog_names_distinct config) as [Hnames Hdescs].
  split; intros Heq.
  - destruct (case_name_inv config t1 n1 Hn1) as (c1 & Hin1 & E1).
    destruct (case_name_inv config t2 n2 Hn2) as (c2 & Hin2 & E2).
    assert ((t1, c1) = (t2, c2)) as Hpair; [|congruence].
    apply (NoDup_map_injective (fun kv => class_name (snd kv))
             (type2case_entries config)); try assumption.
    cbn [snd]. congruence.
  - destruct (case_description_inv config t1 d1 Hd1) as (c1 & Hin1 & E1).
    destruct (case_description_inv config t2 d2 Hd2) as (c2 & Hin2 & E2).
    assert ((t1, c1) = (t2, c2)) as Hpair; [|congruence].
    apply (NoDup_map_injective (fun kv => class_description (snd kv))
             (type2case_entries config)); try assumption.
    cbn [snd]. congruence.
Qed.

Lemma X5_names_identify_cases_witness :
  (name example_case = name example_case ->
   CaseType.Performance768D10M1P = CaseType.Performance768D10M1P) /\
  (description example_case = description example_case ->
   CaseType.Performance768D10M1P = CaseType.Performance768D10M1P).
Proof.
  apply (X5_names_identify_cases example_config
           CaseType.Performance768D10M1P CaseType.Performance768D10M1P);
    reflexivity.
Defined.

(** * Rates at and beyond the edges *)

Lemma float_of_int_small (n : Z) :
  0 < n <= 2 ^ 53 ->
  exists m e,
    float_of_int n = Ok (SF2Prim (S754_finite false m e)) /\
    Prim2SF (SF2Prim (S754_finite false m e)) = S754_finite false m e /\
    bounded prec emax m e = true /\
    Z.pos (digits2_pos m) = 53 /\
    forall c, 52 <= c -> Z.pos m * 2 ^ (c + e) = n * 2 ^ c.
Proof.
  intros Hn.
  destruct (binary_normalize_small n Hn) as (m & e & En & Bn & He & Vn).
  exists m, e. split.
  - unfold float_of_int. now rewrite En.
  - split; [now apply Prim2SF_SF2Prim|]. split; [exact Bn|]. split; [|exact Vn].
    apply andb_true_iff in Bn. destruct Bn as [Hcan _].
    apply canonical_mantissa_spec in Hcan.
    unfold fexp, SpecFloat.emin, prec, emax in Hcan. lia.
Qed.

(** X6: a rate that is not a finite number makes [filters] raise: [ValueError]
    for NaN, [OverflowError] for an infinity over a non-empty dataset, and
    [ValueError] for an infinity over an empty one (the product is NaN). *)
Theorem X6_non_finite_rate (self : Case) (rate : float) :
  filter_rate self = Some rate ->
  0 <= records self <= 2 ^ 53 ->
  (float_is_nan rate = true ->
   filters self = Raise (ValueError "cannot convert float NaN to integer")) /\
  (float_is_infinite rate = true -> records self = 0 ->
   filters self = Raise (ValueError "cannot convert float NaN to integer")) /\
  (float_is_infinite rate = true -> 0 < records self ->
   filters self
   = Raise (OverflowError "cannot convert float infinity to integer")).
Proof.
  intros Hr [Hn0 Hn]. rewrite (filters_with_rate self rate Hr).
  assert (Prim2SF 0 = S754_zero false) as E0 by (vm_compute; reflexivity).
  assert (forall x, float_mul_int x 0 = Ok (x * 0)%float) as Hzero
      by (intros x; reflexivity).
  unfold float_is_nan, float_is_infinite.
  split; [|split].
  - intros Hnan.
    destruct (Z.eq_dec (records self) 0) as [->|Hnz].
    + rewrite Hzero. cbn [bind]. unfold py_round. rewrite mul_spec.
      destruct (Prim2SF rate); try discriminate. reflexivity.
    + destruct (float_of_int_small (records self) ltac:(lia))
        as (m & e & Ef & Ep & _).
      unfold float_mul_int. rewrite Ef. cbn [bind].
      unfold py_round. rewrite mul_spec, Ep.
      destruct (Prim2SF rate); try discriminate. reflexivity.
  - intros Hinf ->. rewrite Hzero. cbn [bind]. unfold py_round.
    rewrite mul_spec, E0.
    destruct (Prim2SF rate); try discriminate. reflexivity.
  - intros Hinf Hpos.
    destruct (float_of_int_small (records self) ltac:(lia))
      as (m & e & Ef & Ep & _).
    unfold float_mul_int. rewrite Ef. cbn [bind].
    unfold py_round. rewrite mul_spec, Ep.
    destruct (Prim2SF rate); try discriminate. reflexivity.
Qed.

Lemma X6_non_finite_rate_witness :
  (float_is_nan nan = true ->
   filters (custom_case (Some nan) 10)
   = Raise (ValueError "cannot convert float NaN to integer")) /\
  (float_is_infinite nan = true -> records (custom_case (Some nan) 10) = 0 ->
   filters (custom_case (Some nan) 10)
   = Raise (ValueError "cannot convert float NaN to integer")) /\
  (float_is_infinite nan = true -> 0 < records (custom_case (Some nan) 10) ->
   filters (custom_case (Some nan) 10)
   = Raise (OverflowError "cannot convert float infinity to integer")).
Proof.
  apply (X6_non_finite_rate (custom_case (Some nan) 10) nan).
  - reflexivity.
  - split; [discriminate|]. apply Z.leb_le. vm_compute. reflexivity.
Defined.

(** Multiplying a normal binary64 value by one leaves it as it is. *)
Lemma SFmul_one (m : positive) (e : Z) :
  bounded prec emax m e = true ->
  Z.pos (digits2_pos m) = 53 ->
  SFmul prec emax (S754_finite false 4503599627370496 (-52))
    (S754_finite false m e)
  = S754_finite false m e.
Proof.
  intros HB Hd. pose proof HB as HB'.
  apply andb_true_iff in HB'. destruct HB' as [Hcan He].
  apply canonical_mantissa_spec in Hcan.
  assert ((4503599627370496 * m)%positive = Pos.iter xO m 52) as Emul.
  { apply Pos2Z.inj. rewrite iter_xO_value, Pos2Z.inj_mul.
    change (2 ^ Z.pos 52) with 4503599627370496. lia. }
  unfold SFmul. cbn [xorb]. rewrite Emul.
  unfold binary_round_aux, shr_fexp. cbn [shr_record_of_loc Zdigits2].
  rewrite iter_xO_digits.
  replace (Z.pos (digits2_pos m) + 52 + (-52 + e))
    with (Z.pos (digits2_pos m) + e) by lia.
  rewrite Hcan. replace (e - (-52 + e)) with 52 by lia.
  pose proof (shr_exact_inv (Z.pos (Pos.iter xO m 52)) (-52 + e) 52
                ltac:(lia)) as Hshr.
  destruct (shr (Build_shr_record (Z.pos (Pos.iter xO m 52)) false false)
              (-52 + e) 52) as [mrs e1].
  destruct Hshr as [He1 [Hm Hrs]].
  rewrite iter_xO_value in Hm, Hrs.
  change (Z.max 0 52) with 52 in *.
  rewrite Z.div_mul in Hm by (apply Z.pow_nonzero; lia).
  rewrite Z.mod_mul in Hrs by (apply Z.pow_nonzero; lia).
  destruct mrs as [m1 r s]. cbn [shr_m shr_r shr_s] in *. subst m1.
  assert (r = false) as -> by (destruct r; [exfalso; apply Hrs; auto|reflexivity]).
  assert (s = false) as -> by (destruct s; [exfalso; apply Hrs; auto|reflexivity]).
  cbn [loc_of_shr_record round_nearest_even shr_record_of_loc Zdigits2].
  replace e1 with e by lia.
  rewrite Hcan, Z.sub_diag. cbn [shr shr_m]. rewrite He. reflexivity.
Qed.

(** Rounding a float that holds an integer gives that integer. *)
Lemma round_half_even_exact (c : Z) (m : positive) (e n : Z) :
  0 <= c -> 0 <= c + e ->
  Z.pos m * 2 ^ (c + e) = n * 2 ^ c ->
  round_half_even m e = n.
Proof.
  intros Hc Hce Heq. unfold round_half_even.
  assert (0 < 2 ^ c) as Hpc by (apply Z.pow_pos_nonneg; lia).
  assert (0 < 2 ^ (c + e)) as Hpce by (apply Z.pow_pos_nonneg; lia).
  destruct (0 <=? e) eqn:He.
  - apply Z.leb_le in He.
    rewrite Z.pow_add_r in Heq by lia.
    apply Z.mul_cancel_r with (p := 2 ^ c); lia.
  - apply Z.leb_gt in He.
    set (d := 2 ^ (- e)).
    assert (0 < d) as Hd by (apply Z.pow_pos_nonneg; lia).
    assert (2 ^ c = 2 ^ (c + e) * d) as Hsplit.
    { unfold d. rewrite <- Z.pow_add_r by lia. f_equal. lia. }
    assert (Z.pos m = n * d) as Hm.
    { apply Z.mul_cancel_r with (p := 2 ^ (c + e)); [lia|].
      rewrite Heq, Hsplit. ring. }
    rewrite Hm, Z.div_mul, Z.mod_mul by lia.
    replace (2 * 0 ?= d) with Lt by (symmetry; apply Z.compare_lt_iff; lia).
    reflexivity.
Qed.

(** X7: the two boundary rates.  With rate [0.0] the threshold is [0] and all
    [N] positions satisfy the predicate; with rate [1.0] the threshold is [N]
    and no position does. *)
Theorem X7_boundary_rates (self : Case) :
  0 <= records self <= 2 ^ 53 ->
  (filter_rate self = Some 0%float ->
   filters self = Ok (Some {| metadata := ">=0"; id := 0 |}) /\
   count_satisfying {| metadata := ">=0"; id := 0 |} (records self)
   = records self) /\
  (filter_rate self = Some 1%float ->
   filters self
   = Ok (Some {| metadata := ">=" ++ str_int (records self);
                 id := records self |}) /\
   count_satisfying
     {| metadata := ">=" ++ str_int (records self); id := records self |}
     (records self) = 0).
Proof.
  intros [Hn0 Hn].
  assert (Prim2SF 0 = S754_zero false) as E0 by (vm_compute; reflexivity).
  assert (Prim2SF 1 = S754_finite false 4503599627370496 (-52)) as E1
      by (vm_compute; reflexivity).
  assert (forall x, float_mul_int x 0 = Ok (x * 0)%float) as Hzero
      by (intros x; reflexivity).
  split; intros Hr; rewrite (filters_with_rate self _ Hr).
  - split;
      [|pose proof (count_satisfying_ge 0 (records self) ltac:(lia)) as Hc;
        change (">=" ++ str_int 0) with ">=0" in Hc; rewrite Hc; lia].
    destruct (Z.eq_dec (records self) 0) as [->|Hnz].
    + reflexivity.
    + destruct (float_of_int_small (records self) ltac:(lia))
        as (m & e & Ef & Ep & _).
      unfold float_mul_int. rewrite Ef. cbn [bind].
      unfold py_round. rewrite mul_spec, Ep, E0. reflexivity.
  - split; [|apply count_satisfying_none; lia].
    destruct (Z.eq_dec (records self) 0) as [->|Hnz].
    + reflexivity.
    + destruct (float_of_int_small (records self) ltac:(lia))
        as (m & e & Ef & Ep & HB & Hd & Hv).
      unfold float_mul_int. rewrite Ef. cbn [bind].
      unfold py_round. rewrite mul_spec, Ep, E1.
      unfold SF64mul. rewrite SFmul_one by assumption.
      cbn [cond_Zopp bind].
      assert (-1074 <= e) as He.
      { apply andb_true_iff in HB. destruct HB as [Hcan _].
        apply canonical_mantissa_spec in Hcan.
        unfold fexp, SpecFloat.emin, prec, emax in Hcan. lia. }
      rewrite (round_half_even_exact 1074 m e (records self));
        [reflexivity|lia|lia|apply Hv; lia].
Qed.

Lemma X7_boundary_rates_witness :
  (filter_rate (custom_case (Some 1%float) 1000) = Some 0%float ->
   filters (custom_case (Some 1%float) 1000)
   = Ok (Some {| metadata := ">=0"; id := 0 |}) /\
   count_satisfying {| metadata := ">=0"; id := 0 |}
     (records (custom_case (Some 1%float) 1000))
   = records (custom_case (Some 1%float) 1000)) /\
  (filter_rate (custom_case (Some 1%float) 1000) = Some 1%float ->
   filters (custom_case (Some 1%float) 1000)
   = Ok (Some {| metadata :=
                   ">=" ++ str_int (records (custom_case (Some 1%float) 1000));
                 id := records (custom_case (Some 1%float) 1000) |}) /\
   count_satisfying
     {| metadata :=
          ">=" ++ str_int (records (custom_case (Some 1%float) 1000));
        id := records (custom_case (Some 1%float) 1000) |}
     (records (custom_case (Some 1%float) 1000)) = 0).
Proof.
  apply (X7_boundary_rates (custom_case (Some 1%float) 1000)).
  split; [discriminate|]. apply Z.leb_le. vm_compute. reflexivity.
Defined.
